(** * crypto-indicators-mcp: the OHLCV fetch routine and its callers

    A shallow embedding of [utils/fetchOhlcvData.js] (module start-up and
    the [fetchOhlcvData] function) and of the tool callbacks registered in
    the indicator files, followed by the properties of the specification.

    JavaScript values are an inductive type, exceptions are a sum type, and
    the calls into the [ccxt] client library are recorded in a trace that
    is threaded through every computation.  The three built-in functions
    whose results the language leaves to the implementation are taken as
    a parameter. *)

From Stdlib Require Import ZArith List Ascii String DecimalString.
From Stdlib Require Import Floats.PrimFloat.
From stdpp Require Import base option list strings gmap.

Set Warnings "-register-all".
Local Open Scope string_scope.
Local Open Scope list_scope.

(** ** JavaScript values *)

(** A number is an IEEE-754 binary64, as in the language.  [JDate t] is a
    [Date] object with time value [t] (milliseconds since the epoch, or
    NaN for an invalid date).  An array is the list of its elements; an
    object is a plain data object, the ordered list of its own properties,
    none of which is a function. *)
Inductive JsVal : Type :=
| JUndefined
| JNull
| JBool (b : bool)
| JNum (x : float)
| JStr (s : string)
| JDate (t : float)
| JArr (elems : list JsVal)
| JObj (props : list (string * JsVal)).

(** Error objects: the module throws [Error] objects and the language
    throws a [TypeError] on a bad property read, constructor call or
    conversion; each carries a string message. *)
Inductive JsError : Type :=
| Error (msg : string)
| TypeError (msg : string).

Definition message (e : JsError) : string :=
  match e with
  | Error m => m
  | TypeError m => m
  end.

(** What a [catch] clause can receive: an error object, or any other
    value, since a promise can be rejected with anything. *)
Inductive Thrown : Type :=
| ErrorObject (e : JsError)
| Value (v : JsVal).
Coercion ErrorObject : JsError >-> Thrown.

(** Result of an evaluation that may throw; [Res] is the case in which
    only error objects are thrown. *)
Inductive Result (E A : Type) : Type :=
| Ok (a : A)
| Throw (e : E).
Arguments Ok {E A} a.
Arguments Throw {E A} e.
Abbreviation Res := (Result JsError).

(** ToBoolean. *)
Definition truthy (v : JsVal) : bool :=
  match v with
  | JUndefined | JNull => false
  | JBool b => b
  | JNum x => negb (PrimFloat.eqb x 0 || PrimFloat.is_nan x)
  | JStr s => negb (String.eqb s EmptyString)
  | JDate _ | JArr _ | JObj _ => true
  end.

(** [Array.isArray]. *)
Definition Array_isArray (v : JsVal) : bool :=
  match v with
  | JArr _ => true
  | _ => false
  end.

(** Decimal rendering of an array index inside a template literal. *)
Definition string_of_index (i : nat) : string :=
  NilZero.string_of_uint (Nat.to_uint i).

(** Property lookup in an association list of own properties. *)
Fixpoint props_get (props : list (string * JsVal)) (key : string) : JsVal :=
  match props with
  | [] => JUndefined
  | (k, v) :: rest => if String.eqb k key then v else props_get rest key
  end.

(** [v[k]] for an integer index [k]: an array yields its element or
    [undefined]; reading a property of [undefined] or [null] throws. *)
Definition js_index (v : JsVal) (k : nat) : Res JsVal :=
  match v with
  | JArr elems => Ok (nth k elems JUndefined)
  | JUndefined =>
      Throw (TypeError ("Cannot read properties of undefined (reading '"
                        +:+ string_of_index k +:+ "')"))
  | JNull =>
      Throw (TypeError ("Cannot read properties of null (reading '"
                        +:+ string_of_index k +:+ "')"))
  | JStr s =>
      Ok (match String.get k s with
          | Some c => JStr (String c EmptyString)
          | None => JUndefined
          end)
  | JObj props => Ok (props_get props (string_of_index k))
  | JBool _ | JNum _ | JDate _ => Ok JUndefined
  end.

(** [Object.prototype.hasOwnProperty]. *)
Definition has_own (props : list (string * JsVal)) (key : string) : bool :=
  existsb (fun kv => String.eqb (fst kv) key) props.

(** ** Built-in conversions *)

(** The results of these three built-ins are left to the implementation
    (number formatting, the local date format, the date grammar beyond ISO
    strings): [Number.prototype.toString], [Date.prototype.toString] on a
    time value, and [Date.parse], which returns a time value or NaN. *)
Record Builtins : Type := mkBuiltins {
  Number_toString : float -> string;
  Date_toString : float -> string;
  Date_parse : string -> float
}.

Definition to_primitive_error : JsError :=
  TypeError "Cannot convert object to primitive value".

(** [ToString].  Of an array it is [join(",")], in which [undefined] and
    [null] elements give the empty string.  A plain object converts through
    [Object.prototype.toString], unless an own property of that name hides
    it: own properties are data, not callable, and [valueOf] returns the
    object itself, so the conversion throws. *)
Fixpoint ToString (js : Builtins) (v : JsVal) : Res string :=
  match v with
  | JUndefined => Ok "undefined"
  | JNull => Ok "null"
  | JBool true => Ok "true"
  | JBool false => Ok "false"
  | JNum x => Ok (Number_toString js x)
  | JStr s => Ok s
  | JDate t => Ok (Date_toString js t)
  | JArr elems =>
      (fix join_elements (l : list JsVal) : Res string :=
         match l with
         | [] => Ok EmptyString
         | x :: rest =>
             match (match x with
                    | JUndefined | JNull => Ok EmptyString
                    | _ => ToString js x
                    end) with
             | Throw e => Throw e
             | Ok s =>
                 match rest with
                 | [] => Ok s
                 | _ :: _ =>
                     match join_elements rest with
                     | Throw e => Throw e
                     | Ok t => Ok (s +:+ "," +:+ t)
                     end
                 end
             end
         end) elems
  | JObj props =>
      if has_own props "toString" then Throw to_primitive_error
      else Ok "[object Object]"
  end.

(** Truncation of a finite number toward zero.  Below 2^52 in magnitude,
    adding and subtracting 2^52 rounds to the nearest integer, which is
    one too many when it exceeds the number; from 2^52 on every number is
    an integer. *)
Definition truncate (x : float) : float :=
  let a := PrimFloat.abs x in
  if (a <? 4503599627370496)%float then
    let r := (a + 4503599627370496 - 4503599627370496)%float in
    let f := if (a <? r)%float then (r - 1)%float else r in
    if (x <? 0)%float then (- f)%float else f
  else x.

(** [TimeClip]: NaN outside 8.64e15 milliseconds around the epoch, else the
    integral part; adding [+0] turns [-0] into [+0]. *)
Definition TimeClip (x : float) : float :=
  if PrimFloat.is_nan x || PrimFloat.is_infinity x then PrimFloat.nan
  else if (8640000000000000 <? PrimFloat.abs x)%float then PrimFloat.nan
  else (truncate x + 0)%float.

(** [new Date(v)] with one argument: a [Date] is copied; otherwise the
    argument is converted to a primitive, a string is parsed and anything
    else is converted to a number and clipped.  An array or object
    converts to the primitive [ToString] gives, or throws as it does. *)
Definition new_Date (js : Builtins) (v : JsVal) : Res JsVal :=
  match v with
  | JDate t => Ok (JDate t)
  | JStr s => Ok (JDate (Date_parse js s))
  | JNum x => Ok (JDate (TimeClip x))
  | JUndefined => Ok (JDate PrimFloat.nan)
  | JNull => Ok (JDate 0%float)
  | JBool true => Ok (JDate 1%float)
  | JBool false => Ok (JDate 0%float)
  | JArr _ | JObj _ =>
      match ToString js v with
      | Throw e => Throw e
      | Ok s => Ok (JDate (Date_parse js s))
      end
  end.

(** [error.message] in a [catch] clause: an error object has its message;
    reading a property of [undefined] or [null] throws; a plain object
    has the property or not; any other value has none. *)
Definition get_message (error : Thrown) : Res JsVal :=
  match error with
  | ErrorObject e => Ok (JStr (message e))
  | Value JUndefined =>
      Throw (TypeError "Cannot read properties of undefined (reading 'message')")
  | Value JNull =>
      Throw (TypeError "Cannot read properties of null (reading 'message')")
  | Value (JObj props) => Ok (props_get props "message")
  | Value _ => Ok JUndefined
  end.

(** The text of [${error.message}] inside a template literal. *)
Definition message_text (js : Builtins) (error : Thrown) : Res string :=
  match get_message error with
  | Throw e => Throw e
  | Ok v => ToString js v
  end.

(** [a.length] of a value already known to be an array. *)
Definition array_length (v : JsVal) : nat :=
  match v with
  | JArr elems => length elems
  | _ => 0
  end.

(** [Array.prototype.join]. *)
Fixpoint join (sep : string) (l : list string) : string :=
  match l with
  | [] => EmptyString
  | [x] => x
  | x :: rest => x +:+ sep +:+ join sep rest
  end.

(** [Array.prototype.map] with a callback that may throw. *)
Fixpoint Array_map (f : JsVal -> Res JsVal) (l : list JsVal) : Res (list JsVal) :=
  match l with
  | [] => Ok []
  | x :: rest =>
      match f x with
      | Throw e => Throw e
      | Ok y =>
          match Array_map f rest with
          | Throw e => Throw e
          | Ok ys => Ok (y :: ys)
          end
      end
  end.

(** ** The client library and the trace of calls into it *)

(** Arguments of one [exchange.fetchOHLCV(symbol, timeframe, since, limit)]. *)
Record Request : Type := mkRequest {
  rq_symbol : string;
  rq_timeframe : string;
  rq_since : JsVal;
  rq_limit : Z
}.

(** Options object handed to the client constructor. *)
Record ClientOptions : Type := mkOptions {
  enableRateLimit : bool
}.

(** What the module does to the outside: it constructs a client, and it
    sends a historical-bar request to the provider. *)
Inductive Event : Type :=
| EvNew (id : string) (opts : ClientOptions)
| EvFetchOHLCV (req : Request).

(** Settlement of the promise returned by the provider call: resolved
    with a value, or rejected with an error object or any other value. *)
Inductive Outcome : Type :=
| Resolved (v : JsVal)
| Rejected (reason : Thrown).

(** A provider client: its capability table, and the answer of the
    provider to a request, which may depend on everything that happened
    before (rate limits, outages). *)
Record Exchange : Type := mkExchange {
  ex_has : gmap string JsVal;
  ex_fetchOHLCV : list Event -> Request -> Outcome
}.

(** [o[key]] on a capability table: a missing key reads [undefined]. *)
Definition has_get (o : gmap string JsVal) (key : string) : JsVal :=
  default JUndefined (o !! key).

(** ** Computations: exceptions and the trace *)

(** [MT E A]: a computation that returns an [A] or throws an [E], and
    extends the trace.  [M] is the case in which only error objects are
    thrown. *)
Definition MT (E A : Type) : Type := list Event -> Result E A * list Event.
Abbreviation M := (MT JsError).

Definition ret {E A} (a : A) : MT E A := fun tr => (Ok a, tr).

Definition throw {E A} (e : E) : MT E A := fun tr => (Throw e, tr).

Definition bind {E A B} (c : MT E A) (k : A -> MT E B) : MT E B :=
  fun tr =>
    match c tr with
    | (Ok a, tr') => k a tr'
    | (Throw e, tr') => (Throw e, tr')
    end.

Definition lift {E A} (r : Result E A) : MT E A := fun tr => (r, tr).

(** A step that throws error objects, inside a block that can also be
    left by a rejection with any value. *)
Definition raise_errors {A} (r : Res A) : MT Thrown A :=
  fun tr =>
    (match r with
     | Ok a => Ok a
     | Throw e => Throw (ErrorObject e)
     end, tr).

(** [try { c } catch (error) { h error }]. *)
Definition try_catch {E E' A} (c : MT E A) (h : E -> MT E' A) : MT E' A :=
  fun tr =>
    match c tr with
    | (Ok a, tr') => (Ok a, tr')
    | (Throw e, tr') => h e tr'
    end.

Notation "'let!' x ':=' c 'in' k" := (bind c (fun x => k))
  (at level 10, x name, c at level 100, k at level 200).

(** [await exchange.fetchOHLCV(symbol, timeframe, since, limit)]: the
    request is sent, and the reason of a rejection is thrown at the
    [await]. *)
Definition await_fetchOHLCV (ex : Exchange) (symbol timeframe : string)
    (since : JsVal) (limit : Z) : MT Thrown JsVal :=
  fun tr =>
    let req := mkRequest symbol timeframe since limit in
    (match ex_fetchOHLCV ex tr req with
     | Resolved v => Ok v
     | Rejected reason => Throw reason
     end, tr ++ [EvFetchOHLCV req]).

(** [new ccxt[id](opts)]. *)
Definition new_exchange (ccxt : gmap string (ClientOptions -> Exchange))
    (id : string) (opts : ClientOptions) : M Exchange :=
  match ccxt !! id with
  | Some ctor => fun tr => (Ok (ctor opts), tr ++ [EvNew id opts])
  | None => throw (TypeError "ccxt[exid] is not a constructor")
  end.

(** ** utils/fetchOhlcvData.js: module start-up *)

Definition ALLOWED_EXCHANGES : list string :=
  ["binance"; "kraken"; "coinbase"; "bybit"; "okx";
   "kucoin"; "gate"; "huobi"; "bitfinex"; "mexc"].

(** [Set.prototype.has] on a set of strings kept in insertion order. *)
Definition Set_has (s : list string) (x : string) : bool :=
  existsb (String.eqb x) s.

Definition dquote : string := String (ascii_of_nat 34) EmptyString.

(** [process.env.EXCHANGE_NAME || "binance"]. *)
Definition read_exid (env : gmap string string) : string :=
  match env !! "EXCHANGE_NAME" with
  | Some s => if truthy (JStr s) then s else "binance"
  | None => "binance"
  end.

(** The module-level bindings that [fetchOhlcvData] closes over. *)
Record Module : Type := mkModule {
  exid : string;
  exchange : Exchange
}.

Definition load_module (env : gmap string string)
    (ccxt : gmap string (ClientOptions -> Exchange)) : M Module :=
  let exid := read_exid env in
  if negb (Set_has ALLOWED_EXCHANGES exid) then
    throw (Error ("Unsupported exchange: " +:+ dquote +:+ exid +:+ dquote
                  +:+ ". Allowed: " +:+ join ", " ALLOWED_EXCHANGES))
  else
    let! exchange := new_exchange ccxt exid (mkOptions true) in
    ret (mkModule exid exchange).

(** ** utils/fetchOhlcvData.js: fetchOhlcvData *)

Record PriceSeries : Type := mkPriceSeries {
  dates : list JsVal;
  openings : list JsVal;
  highs : list JsVal;
  lows : list JsVal;
  closings : list JsVal;
  volumes : list JsVal
}.

(** The row loop [for (let i = 0; i < ohlcv.length; i++)], entered at
    index [i] with [n] iterations left ([i + n = ohlcv.length]). *)
Fixpoint validate_rows (ohlcv : list JsVal) (n i : nat) : Res unit :=
  match n with
  | 0 => Ok tt
  | S n' =>
      let row := nth i ohlcv JUndefined in
      if negb (Array_isArray row) || (array_length row <? 6)%nat then
        Throw (Error ("Malformed OHLCV row at index " +:+ string_of_index i
                      +:+ ": expected 6 values"))
      else validate_rows ohlcv n' (S i)
  end.

(** The two validation statements after the provider call. *)
Definition validate_response (ohlcv : JsVal) : Res (list JsVal) :=
  match ohlcv with
  | JArr rows =>
      if (length rows =? 0)%nat then
        Throw (Error "No OHLCV data returned from exchange")
      else
        match validate_rows rows (length rows) 0 with
        | Throw e => Throw e
        | Ok _ => Ok rows
        end
  | _ => Throw (Error "No OHLCV data returned from exchange")
  end.

(** [ohlcv.map((row) => row[k])]. *)
Definition column (k : nat) (rows : list JsVal) : Res (list JsVal) :=
  Array_map (fun row => js_index row k) rows.

(** [ohlcv.map((row) => new Date(row[0]))]. *)
Definition date_column (js : Builtins) (rows : list JsVal) : Res (list JsVal) :=
  Array_map (fun row =>
               match js_index row 0 with
               | Throw e => Throw e
               | Ok v => new_Date js v
               end) rows.

(** The object literal of the [return] statement, fields in source order. *)
Definition transpose (js : Builtins) (rows : list JsVal) : Res PriceSeries :=
  match date_column js rows with
  | Throw e => Throw e
  | Ok ds =>
  match column 1 rows with
  | Throw e => Throw e
  | Ok os =>
  match column 2 rows with
  | Throw e => Throw e
  | Ok hs =>
  match column 3 rows with
  | Throw e => Throw e
  | Ok ls =>
  match column 4 rows with
  | Throw e => Throw e
  | Ok cs =>
  match column 5 rows with
  | Throw e => Throw e
  | Ok vs => Ok (mkPriceSeries ds os hs ls cs vs)
  end end end end end end.

(** The body of the [try] block. *)
Definition fetch_try (js : Builtins) (m : Module) (symbol timeframe : string)
    (limit : Z) : MT Thrown PriceSeries :=
  if negb (truthy (has_get (ex_has (exchange m)) "fetchOHLCV")) then
    throw (ErrorObject (Error (exid m +:+ " does not support fetchOHLCV")))
  else
    let! ohlcv := await_fetchOHLCV (exchange m) symbol timeframe JUndefined limit in
    let! rows := raise_errors (validate_response ohlcv) in
    raise_errors (transpose js rows).

Definition fetch_prefix : string := "Failed to fetch OHLCV data: ".

(** The [catch] clause builds the message with a template literal; if
    reading or converting [error.message] throws, that error leaves the
    function instead. *)
Definition fetchOhlcvData (js : Builtins) (m : Module) (symbol timeframe : string)
    (limit : Z) : M PriceSeries :=
  try_catch (fetch_try js m symbol timeframe limit)
    (fun error =>
       let! t := lift (message_text js error) in
       throw (Error (fetch_prefix +:+ t))).

(** ** The tool callbacks of the indicator files *)

(** One entry of the [content] array of a tool result. *)
Record ContentItem : Type := mkContentItem {
  type : string;
  text : JsVal
}.

Record ToolResult : Type := mkToolResult {
  content : list ContentItem
}.

(** [{ content: [{ type: "text", text: t }] }]. *)
Definition text_result (t : JsVal) : ToolResult :=
  mkToolResult [mkContentItem "text" t].

Section Tools.
Variable js : Builtins.
(** The functions of [indicatorts] are outside the repository: each is a
    function of its arguments that returns a value or throws.  The
    options object is passed as its fields.  [JSON.stringify] returns a
    string, or [undefined], or throws. *)
Variable accelerationBandsStrategy : PriceSeries -> Z -> Res JsVal.
Variable momentumStrategy : PriceSeries -> Z -> Res JsVal.
Variable awesomeOscillator : list JsVal -> list JsVal -> Z -> Z -> Res JsVal.
Variable JSON_stringify : JsVal -> Res JsVal.

(** The module instance of [fetchOhlcvData] the callbacks import. *)
Variable m : Module.

(** The shape every registered callback has: fetch, one indicator call
    on the price series, stringify; any error becomes a text payload. *)
Definition tool_callback (indicator : PriceSeries -> Res JsVal)
    (symbol timeframe : string) (limit : Z) : M ToolResult :=
  try_catch
    (let! asset := fetchOhlcvData js m symbol timeframe limit in
     let! result := lift (indicator asset) in
     let! t := lift (JSON_stringify result) in
     ret (text_result t))
    (fun error => ret (text_result (JStr ("Error: " +:+ message error)))).



Definition calculate_awesome_oscillator
    (symbol timeframe : string) (fastPeriod slowPeriod limit : Z) : M ToolResult :=
  tool_callback
    (fun asset => awesomeOscillator (highs asset) (lows asset) fastPeriod slowPeriod)
    symbol timeframe limit.
End Tools.

(** ** The symbol pattern of the tool schemas *)

(** The pattern [/^[A-Z0-9]{1,10}\/[A-Z0-9]{1,10}$/] is a sequence of
    atoms matched against the whole string: a literal character, or a
    character class repeated between [lo] and [hi] times. *)
Inductive Atom : Type :=
| Lit (c : ascii)
| Class (p : ascii -> bool) (lo hi : nat).

(** [[A-Z0-9]]. *)
Definition upper_or_digit (c : ascii) : bool :=
  let n := nat_of_ascii c in
  ((65 <=? n) && (n <=? 90) || (48 <=? n) && (n <=? 57))%nat.

(** Anchored matching: a class tries every repetition count in its range. *)
Fixpoint regex_test (atoms : list Atom) (s : list ascii) : bool :=
  match atoms with
  | [] => match s with [] => true | _ :: _ => false end
  | Lit c :: rest =>
      match s with
      | [] => false
      | c' :: s' => Ascii.eqb c c' && regex_test rest s'
      end
  | Class p lo hi :: rest =>
      existsb (fun k => (k <=? length s)%nat && forallb p (take k s)
                        && regex_test rest (drop k s))
        (seq lo (S hi - lo))
  end.

Definition SYMBOL_PATTERN : list Atom :=
  [Class upper_or_digit 1 10; Lit "/"%char; Class upper_or_digit 1 10].

(** [z.string().regex(...)] on the [symbol] parameter. *)
Definition symbol_accepted (v : JsVal) : bool :=
  match v with
  | JStr s => regex_test SYMBOL_PATTERN (list_ascii_of_string s)
  | _ => false
  end.

(** ** Vocabulary of the properties *)

(** The test of the row loop: the row is not an array, or is too short. *)
Definition malformed_row (row : JsVal) : bool :=
  negb (Array_isArray row) || (array_length row <? 6)%nat.

Definition malformed_row_message (i : nat) : string :=
  "Malformed OHLCV row at index " +:+ string_of_index i +:+ ": expected 6 values".

Definition no_data_message : string := "No OHLCV data returned from exchange".

Definition capability_message (m : Module) : string :=
  exid m +:+ " does not support fetchOHLCV".

(** Field [k] of a row that is an array. *)
Definition field (k : nat) (row : JsVal) : JsVal :=
  match row with
  | JArr elems => nth k elems JUndefined
  | _ => JUndefined
  end.

(** The provider declares support for historical bars. *)
Definition supports_fetchOHLCV (m : Module) : bool :=
  truthy (has_get (ex_has (exchange m)) "fetchOHLCV").

(** The request one invocation sends. *)
Definition request_of (symbol timeframe : string) (limit : Z) : Request :=
  mkRequest symbol timeframe JUndefined limit.

(** The requests to the provider recorded in a trace. *)
Fixpoint fetch_requests (tr : list Event) : list Request :=
  match tr with
  | [] => []
  | EvFetchOHLCV req :: rest => req :: fetch_requests rest
  | EvNew _ _ :: rest => fetch_requests rest
  end.

(** The clients constructed in a trace. *)
Fixpoint constructions (tr : list Event) : list string :=
  match tr with
  | [] => []
  | EvNew id _ :: rest => id :: constructions rest
  | EvFetchOHLCV _ :: rest => constructions rest
  end.

(** How many provider requests a computation adds to a trace. *)
Definition requests_by {A} (c : M A) (tr : list Event) : nat :=
  length (fetch_requests (snd (c tr))) - length (fetch_requests tr).

(** The invariant of the data model: six columns of one length, not empty. *)
Definition series_invariant (ps : PriceSeries) : Prop :=
  let n := length (dates ps) in
  length (openings ps) = n /\ length (highs ps) = n /\ length (lows ps) = n /\
  length (closings ps) = n /\ length (volumes ps) = n /\ 1 <= n.

(** A value that is not an object: [new Date] converts it without
    calling anything. *)
Definition is_primitive (v : JsVal) : bool :=
  match v with
  | JUndefined | JNull | JBool _ | JNum _ | JStr _ => true
  | JDate _ | JArr _ | JObj _ => false
  end.

(** [new Date] accepts the value: it returns a date and does not throw. *)
Definition date_accepted (js : Builtins) (v : JsVal) : Prop :=
  exists d, new_Date js v = Ok d.

(** The price series made of a date column and of fields 1 to 5 of rows
    that are arrays. *)
Definition series_of_rows (ds : list JsVal) (rows : list JsVal) : PriceSeries :=
  mkPriceSeries ds
    (map (field 1) rows) (map (field 2) rows) (map (field 3) rows)
    (map (field 4) rows) (map (field 5) rows).

(** The ways one invocation can go, each with its result and the trace
    it leaves. *)
Inductive fetch_path (js : Builtins) (m : Module) (symbol timeframe : string)
    (limit : Z) (tr : list Event) : Res PriceSeries * list Event -> Prop :=
| path_unsupported :
    supports_fetchOHLCV m = false ->
    fetch_path js m symbol timeframe limit tr
      (Throw (Error (fetch_prefix +:+ capability_message m)), tr)
| path_rejected reason t :
    supports_fetchOHLCV m = true ->
    ex_fetchOHLCV (exchange m) tr (request_of symbol timeframe limit)
      = Rejected reason ->
    message_text js reason = Ok t ->
    fetch_path js m symbol timeframe limit tr
      (Throw (Error (fetch_prefix +:+ t)),
       tr ++ [EvFetchOHLCV (request_of symbol timeframe limit)])
| path_escaped reason e :
    supports_fetchOHLCV m = true ->
    ex_fetchOHLCV (exchange m) tr (request_of symbol timeframe limit)
      = Rejected reason ->
    message_text js reason = Throw e ->
    fetch_path js m symbol timeframe limit tr
      (Throw e, tr ++ [EvFetchOHLCV (request_of symbol timeframe limit)])
| path_no_data v :
    supports_fetchOHLCV m = true ->
    ex_fetchOHLCV (exchange m) tr (request_of symbol timeframe limit) = Resolved v ->
    Array_isArray v = false \/ v = JArr [] ->
    fetch_path js m symbol timeframe limit tr
      (Throw (Error (fetch_prefix +:+ no_data_message)),
       tr ++ [EvFetchOHLCV (request_of symbol timeframe limit)])
| path_malformed_row rows k :
    supports_fetchOHLCV m = true ->
    ex_fetchOHLCV (exchange m) tr (request_of symbol timeframe limit)
      = Resolved (JArr rows) ->
    k < length rows ->
    (forall j, j < k -> malformed_row (nth j rows JUndefined) = false) ->
    malformed_row (nth k rows JUndefined) = true ->
    fetch_path js m symbol timeframe limit tr
      (Throw (Error (fetch_prefix +:+ malformed_row_message k)),
       tr ++ [EvFetchOHLCV (request_of symbol timeframe limit)])
| path_bad_date rows e :
    supports_fetchOHLCV m = true ->
    ex_fetchOHLCV (exchange m) tr (request_of symbol timeframe limit)
      = Resolved (JArr rows) ->
    rows <> [] ->
    Forall (fun row => malformed_row row = false) rows ->
    date_column js rows = Throw e ->
    fetch_path js m symbol timeframe limit tr
      (Throw (Error (fetch_prefix +:+ message e)),
       tr ++ [EvFetchOHLCV (request_of symbol timeframe limit)])
| path_series rows ds :
    supports_fetchOHLCV m = true ->
    ex_fetchOHLCV (exchange m) tr (request_of symbol timeframe limit)
      = Resolved (JArr rows) ->
    rows <> [] ->
    Forall (fun row => malformed_row row = false) rows ->
    date_column js rows = Ok ds ->
    fetch_path js m symbol timeframe limit tr
      (Ok (series_of_rows ds rows),
       tr ++ [EvFetchOHLCV (request_of symbol timeframe limit)]).

(** [{ content: [{ type: "text", text: `Error: ${error.message}` }] }]. *)
Definition error_payload (e : JsError) : ToolResult :=
  text_result (JStr ("Error: " +:+ message e)).


(** Loading the module and then calling the function it exports. *)
Definition startup_then_fetch (js : Builtins) (env : gmap string string)
    (ccxt : gmap string (ClientOptions -> Exchange))
    (symbol timeframe : string) (limit : Z) : M PriceSeries :=
  let! m := load_module env ccxt in
  fetchOhlcvData js m symbol timeframe limit.


(** A row that is an array of at least six fields. *)
Definition wellformed_row (row : JsVal) : Prop :=
  exists fields, row = JArr fields /\ 6 <= length fields.

(** One side of a trading pair: one to ten capital letters or digits. *)
Definition pair_side (w : string) : Prop :=
  1 <= String.length w <= 10 /\
  Forall (fun c => upper_or_digit c = true) (list_ascii_of_string w).

(** ** Concrete inputs *)

(** A runtime in which numbers print as "0", dates print as "Invalid Date"
    and no string parses as a date. *)
Definition sample_builtins : Builtins :=
  mkBuiltins (fun _ => "0") (fun _ => "Invalid Date") (fun _ => PrimFloat.nan).

(** One bar as the provider sends it: timestamp, open, high, low, close,
    volume. *)
Definition bar (t o h l c v : float) : list JsVal :=
  [JNum t; JNum o; JNum h; JNum l; JNum c; JNum v].

Definition sample_rows : list (list JsVal) :=
  [bar 1700000000000 100 110 90 105 12.5;
   bar 1700003600000 105 120 101 118 8.25].

(** A response whose row 3 has only four fields. *)
Definition short_rows : list (list JsVal) :=
  [bar 1 2 3 4 5 6; bar 2 2 3 4 5 6; bar 3 2 3 4 5 6;
   [JNum 4; JNum 2; JNum 3; JNum 4]; bar 5 2 3 4 5 6].

(** A client with one capability entry and a provider that always gives
    the same answer. *)
Definition sample_exchange (capability : JsVal) (answer : Outcome) : Exchange :=
  mkExchange {[ "fetchOHLCV" := capability ]} (fun _ _ => answer).

Definition sample_module (capability : JsVal) (answer : Outcome) : Module :=
  mkModule "binance" (sample_exchange capability answer).

(** A client library that exports one class. *)
Definition sample_ccxt : gmap string (ClientOptions -> Exchange) :=
  {[ "binance" :=
       fun _ => sample_exchange (JBool true) (Resolved (JArr (JArr <$> sample_rows))) ]}.

(** Rows that carry fields beyond the sixth. *)
Definition wide_rows : list (list JsVal) :=
  [bar 1700000000000 100 110 90 105 12.5 ++ [JStr "extra"; JNull];
   bar 1700003600000 105 120 101 118 8.25 ++ [JNum 7]].

(** A client whose provider gives one answer to the first request of a
    trace and another answer afterwards. *)
Definition replaying_module (first later : Outcome) : Module :=
  mkModule "binance"
    (mkExchange {[ "fetchOHLCV" := JBool true ]}
       (fun tr _ => match fetch_requests tr with
                    | [] => first
                    | _ :: _ => later
                    end)).

(** * Properties *)

(** ** The row loop *)

Lemma validate_rows_step ohlcv n i :
  validate_rows ohlcv (S n) i =
  if malformed_row (nth i ohlcv JUndefined)
  then Throw (Error (malformed_row_message i))
  else validate_rows ohlcv n (S i).
Proof. reflexivity. Qed.

(** The loop passes exactly when no row in its range is malformed. *)
Lemma validate_rows_ok ohlcv n i :
  (forall j, i <= j < i + n -> malformed_row (nth j ohlcv JUndefined) = false) ->
  validate_rows ohlcv n i = Ok tt.
Proof.
  revert i. induction n as [|n IH]; intros i Hall; [reflexivity|].
  rewrite validate_rows_step, (Hall i) by lia.
  apply IH. intros j Hj. apply Hall. lia.
Qed.

(** The loop stops at the first malformed row and names its index. *)
Lemma validate_rows_first ohlcv n i k :
  i <= k < i + n ->
  (forall j, i <= j < k -> malformed_row (nth j ohlcv JUndefined) = false) ->
  malformed_row (nth k ohlcv JUndefined) = true ->
  validate_rows ohlcv n i = Throw (Error (malformed_row_message k)).
Proof.
  revert i. induction n as [|n IH]; intros i Hk Hbefore Hbad; [lia|].
  rewrite validate_rows_step.
  destruct (decide (i = k)) as [->|Hne].
  - now rewrite Hbad.
  - rewrite (Hbefore i) by lia.
    apply IH; [lia| |assumption].
    intros j Hj. apply Hbefore. lia.
Qed.

(** Every way the loop can end. *)
Lemma validate_rows_cases ohlcv n i :
  (validate_rows ohlcv n i = Ok tt /\
   forall j, i <= j < i + n -> malformed_row (nth j ohlcv JUndefined) = false) \/
  (exists k, i <= k < i + n /\
     (forall j, i <= j < k -> malformed_row (nth j ohlcv JUndefined) = false) /\
     malformed_row (nth k ohlcv JUndefined) = true /\
     validate_rows ohlcv n i = Throw (Error (malformed_row_message k))).
Proof.
  revert i. induction n as [|n IH]; intros i.
  - left. split; [reflexivity|]. intros j Hj. lia.
  - rewrite validate_rows_step.
    destruct (malformed_row (nth i ohlcv JUndefined)) eqn:Hi.
    + right. exists i. repeat split; try lia; try assumption.
    + destruct (IH (S i)) as [[Hok Hall]|(k & Hk & Hbefore & Hbad & Hthrow)].
      * left. split; [assumption|]. intros j Hj.
        destruct (decide (j = i)) as [->|]; [assumption|]. apply Hall. lia.
      * right. exists k.
        split; [lia|]. split; [|split; assumption].
        intros j Hj.
        destruct (decide (j = i)) as [->|]; [assumption|]. apply Hbefore. lia.
Qed.

(** ** Reading the columns *)

Lemma js_index_array row k :
  Array_isArray row = true -> js_index row k = Ok (field k row).
Proof. destruct row; simpl; intros H; try discriminate; reflexivity. Qed.

Lemma Array_map_total f g l :
  Forall (fun x => f x = Ok (g x)) l -> Array_map f l = Ok (map g l).
Proof.
  induction 1 as [|x l Hx _ IH]; simpl; [reflexivity|].
  now rewrite Hx, IH.
Qed.

Lemma Array_map_ext f g l :
  Forall (fun x => f x = g x) l -> Array_map f l = Array_map g l.
Proof.
  induction 1 as [|x l Hx _ IH]; simpl; [reflexivity|].
  now rewrite Hx, IH.
Qed.

Lemma Array_map_length f l l' :
  Array_map f l = Ok l' -> length l' = length l.
Proof.
  revert l'. induction l as [|x l IH]; intros l' H; simpl in H.
  - now inversion H.
  - destruct (f x); [|discriminate].
    destruct (Array_map f l) as [ys|]; [|discriminate].
    inversion H; subst. simpl. f_equal. now apply IH.
Qed.

(** A successful map applied the callback at every index. *)
Lemma Array_map_lookup f l l' i x :
  Array_map f l = Ok l' -> l !! i = Some x -> Ok <$> l' !! i = Some (f x).
Proof.
  revert l' i. induction l as [|y l IH]; intros l' i H Hx; [discriminate|].
  simpl in H. destruct (f y) as [fy|] eqn:Hy; [|discriminate].
  destruct (Array_map f l) as [ys|]; [|discriminate].
  inversion H; subst. destruct i as [|i]; simpl in *.
  - inversion Hx; subst. now rewrite Hy.
  - now apply IH.
Qed.

(** The map throws what the callback throws at the first element it
    fails on. *)
Lemma Array_map_first_throw f l i x e :
  l !! i = Some x -> f x = Throw e ->
  (forall j y, j < i -> l !! j = Some y -> exists z, f y = Ok z) ->
  Array_map f l = Throw e.
Proof.
  revert i. induction l as [|y l IH]; intros i Hx He Hbefore; [discriminate|].
  destruct i as [|i]; simpl in *.
  - inversion Hx; subst. now rewrite He.
  - destruct (Hbefore 0 y) as [z Hz]; [lia|reflexivity|].
    rewrite Hz. rewrite (IH i Hx He); [reflexivity|].
    intros j y' Hj Hy'. apply (Hbefore (S j) y'); [lia|assumption].
Qed.

(** The map succeeds exactly when the callback does on every element. *)
Lemma Array_map_ok_iff f l :
  (exists l', Array_map f l = Ok l') <-> Forall (fun x => exists y, f x = Ok y) l.
Proof.
  induction l as [|x l IH]; simpl.
  - split; [constructor|]. intros _. now exists [].
  - split.
    + intros [l' H]. destruct (f x) as [y|] eqn:Hx; [|discriminate].
      destruct (Array_map f l) as [ys|]; [|discriminate].
      constructor; [now exists y|]. apply IH. now exists ys.
    + intros H. inversion H as [|? ? [y Hy] Hl]; subst.
      apply IH in Hl. destruct Hl as [ys Hys].
      rewrite Hy, Hys. now eexists.
Qed.

Lemma column_arrays k rows :
  Forall (fun row => Array_isArray row = true) rows ->
  column k rows = Ok (map (field k) rows).
Proof.
  intros H. apply Array_map_total.
  eapply Forall_impl; [exact H|]. intros row Hrow. now apply js_index_array.
Qed.

(** On rows that are arrays the date of a row is [new Date] of its field 0. *)
Lemma date_column_arrays js rows :
  Forall (fun row => Array_isArray row = true) rows ->
  date_column js rows = Array_map (fun row => new_Date js (field 0 row)) rows.
Proof.
  intros H. apply Array_map_ext.
  eapply Forall_impl; [exact H|]. intros row Hrow. cbv beta.
  now rewrite (js_index_array _ 0 Hrow).
Qed.

(** On rows that are arrays only the date column can throw. *)
Lemma transpose_arrays js rows :
  Forall (fun row => Array_isArray row = true) rows ->
  transpose js rows =
  match date_column js rows with
  | Throw e => Throw e
  | Ok ds => Ok (series_of_rows ds rows)
  end.
Proof.
  intros H. unfold transpose, series_of_rows.
  destruct (date_column js rows); [|reflexivity].
  now rewrite !(column_arrays _ _ H).
Qed.

Lemma malformed_row_array row :
  malformed_row row = false -> Array_isArray row = true.
Proof.
  unfold malformed_row. destruct (Array_isArray row); [reflexivity|discriminate].
Qed.

(** Every primitive is accepted. *)
Lemma primitive_accepted js v :
  is_primitive v = true -> date_accepted js v.
Proof.
  unfold date_accepted.
  destruct v as [| |[|]| | | | |]; simpl; intros H; try discriminate; eauto.
Qed.

(** ** The validation of a response *)

(** Every way the validation can end. *)
Lemma validate_response_cases v :
  (exists rows, v = JArr rows /\ rows <> [] /\
     Forall (fun row => malformed_row row = false) rows /\
     validate_response v = Ok rows) \/
  ((Array_isArray v = false \/ v = JArr []) /\
     validate_response v = Throw (Error no_data_message)) \/
  (exists rows k, v = JArr rows /\ k < length rows /\
     (forall j, j < k -> malformed_row (nth j rows JUndefined) = false) /\
     malformed_row (nth k rows JUndefined) = true /\
     validate_response v = Throw (Error (malformed_row_message k))).
Proof.
  destruct v as [| | | | | |rows|]; try (right; left; split; [left|]; reflexivity).
  destruct rows as [|r rows]; [right; left; split; [right|]; reflexivity|].
  unfold validate_response.
  change (length (r :: rows) =? 0)%nat with false. cbv iota.
  destruct (validate_rows_cases (r :: rows) (length (r :: rows)) 0)
    as [[Hok Hall]|(k & Hk & Hbefore & Hbad & Hthrow)].
  - left. exists (r :: rows). repeat split; [discriminate| |now rewrite Hok].
    apply Forall_forall. intros row Hin.
    apply list_elem_of_In, (In_nth _ _ JUndefined) in Hin.
    destruct Hin as (j & Hj & <-). apply Hall. lia.
  - right. right. exists (r :: rows), k. repeat split; try assumption; try lia.
    + intros j Hj. apply Hbefore. lia.
    + now rewrite Hthrow.
Qed.

(** ** One invocation of fetchOhlcvData, path by path *)

Lemma message_text_error js (e : JsError) :
  message_text js (ErrorObject e) = Ok (message e).
Proof. reflexivity. Qed.

Section Invocation.
Variable js : Builtins.
Variable m : Module.
Variables symbol timeframe : string.
Variable limit : Z.
Variable tr : list Event.

(** The capability check fails: nothing is sent. *)
Lemma fetch_unsupported :
  supports_fetchOHLCV m = false ->
  fetchOhlcvData js m symbol timeframe limit tr =
  (Throw (Error (fetch_prefix +:+ capability_message m)), tr).
Proof.
  unfold supports_fetchOHLCV, fetchOhlcvData, try_catch, fetch_try.
  intros ->. reflexivity.
Qed.

(** The provider call rejects: the [catch] clause reads the message of
    the reason, and what it throws while doing so leaves the function. *)
Lemma fetch_rejected_with reason :
  supports_fetchOHLCV m = true ->
  ex_fetchOHLCV (exchange m) tr (request_of symbol timeframe limit)
    = Rejected reason ->
  fetchOhlcvData js m symbol timeframe limit tr =
  (match message_text js reason with
   | Ok t => Throw (Error (fetch_prefix +:+ t))
   | Throw e => Throw e
   end, tr ++ [EvFetchOHLCV (request_of symbol timeframe limit)]).
Proof.
  unfold supports_fetchOHLCV, fetchOhlcvData, try_catch, fetch_try.
  intros -> Hrej. simpl.
  unfold bind, await_fetchOHLCV. fold (request_of symbol timeframe limit).
  rewrite Hrej. unfold lift, throw.
  destruct (message_text js reason); reflexivity.
Qed.

(** The provider call rejects with an error object. *)
Lemma fetch_rejected (e0 : JsError) :
  supports_fetchOHLCV m = true ->
  ex_fetchOHLCV (exchange m) tr (request_of symbol timeframe limit) = Rejected e0 ->
  fetchOhlcvData js m symbol timeframe limit tr =
  (Throw (Error (fetch_prefix +:+ message e0)),
   tr ++ [EvFetchOHLCV (request_of symbol timeframe limit)]).
Proof.
  intros Hsup Hrej. now rewrite (fetch_rejected_with _ Hsup Hrej).
Qed.

(** The provider call resolves: validation, then transposition. *)
Lemma fetch_resolved v :
  supports_fetchOHLCV m = true ->
  ex_fetchOHLCV (exchange m) tr (request_of symbol timeframe limit) = Resolved v ->
  fetchOhlcvData js m symbol timeframe limit tr =
  (match validate_response v with
   | Throw e => Throw (Error (fetch_prefix +:+ message e))
   | Ok rows =>
       match transpose js rows with
       | Throw e => Throw (Error (fetch_prefix +:+ message e))
       | Ok ps => Ok ps
       end
   end, tr ++ [EvFetchOHLCV (request_of symbol timeframe limit)]).
Proof.
  unfold supports_fetchOHLCV, fetchOhlcvData, try_catch, fetch_try.
  intros -> Hres. simpl.
  unfold bind, await_fetchOHLCV. fold (request_of symbol timeframe limit).
  rewrite Hres. unfold raise_errors.
  destruct (validate_response v) as [rows|e]; [|reflexivity].
  destruct (transpose js rows); reflexivity.
Qed.

(** A validated response: the result hangs on the date column alone. *)
Lemma fetch_validated v rows :
  supports_fetchOHLCV m = true ->
  ex_fetchOHLCV (exchange m) tr (request_of symbol timeframe limit) = Resolved v ->
  validate_response v = Ok rows ->
  Forall (fun row => Array_isArray row = true) rows ->
  fetchOhlcvData js m symbol timeframe limit tr =
  (match date_column js rows with
   | Throw e => Throw (Error (fetch_prefix +:+ message e))
   | Ok ds => Ok (series_of_rows ds rows)
   end, tr ++ [EvFetchOHLCV (request_of symbol timeframe limit)]).
Proof.
  intros Hsup Hres Hval Harr.
  rewrite (fetch_resolved v Hsup Hres), Hval, (transpose_arrays _ _ Harr).
  destruct (date_column js rows); reflexivity.
Qed.
End Invocation.

Lemma malformed_row_JArr (r : list JsVal) :
  malformed_row (JArr r) = (length r <? 6)%nat.
Proof. reflexivity. Qed.

Lemma nth_JArr_lookup (rows : list (list JsVal)) j r :
  rows !! j = Some r -> nth j (JArr <$> rows) JUndefined = JArr r.
Proof.
  intros H. apply nth_lookup_Some with (d := JUndefined).
  now rewrite list_lookup_fmap, H.
Qed.

Lemma validate_response_wellformed (rows : list (list JsVal)) :
  1 <= length rows ->
  Forall (fun r => 6 <= length r) rows ->
  validate_response (JArr (JArr <$> rows)) = Ok (JArr <$> rows).
Proof.
  intros Hlen Hall. unfold validate_response.
  rewrite length_fmap.
  destruct (Nat.eqb_spec (length rows) 0) as [H0|_]; [lia|].
  rewrite validate_rows_ok; [reflexivity|].
  intros j Hj.
  destruct (lookup_lt_is_Some_2 rows j) as [r Hr]; [lia|].
  rewrite (nth_JArr_lookup _ _ _ Hr), malformed_row_JArr.
  apply Nat.ltb_ge. rewrite Forall_lookup in Hall. exact (Hall j r Hr).
Qed.

Lemma fmap_JArr_arrays (rows : list (list JsVal)) :
  Forall (fun row => Array_isArray row = true) (JArr <$> rows).
Proof. apply Forall_fmap, Forall_true. intros r. reflexivity. Qed.

Lemma field_column_lookup k (rows : list (list JsVal)) i r :
  rows !! i = Some r -> k < length r ->
  map (field k) (JArr <$> rows) !! i = r !! k.
Proof.
  intros Hr Hk.
  change (map (field k) (JArr <$> rows)) with (field k <$> (JArr <$> rows)).
  rewrite !list_lookup_fmap, Hr. simpl.
  destruct (lookup_lt_is_Some_2 r k Hk) as [x Hx].
  rewrite Hx. f_equal. now apply nth_lookup_Some.
Qed.

(** The date column of rows whose field 0 is accepted. *)
Lemma date_column_accepted js (rows : list (list JsVal)) :
  Forall (fun r => date_accepted js (nth 0 r JUndefined)) rows ->
  exists ds, date_column js (JArr <$> rows) = Ok ds.
Proof.
  intros Hacc.
  rewrite (date_column_arrays _ _ (fmap_JArr_arrays rows)).
  apply Array_map_ok_iff. apply Forall_fmap.
  eapply Forall_impl; [exact Hacc|]. intros r Hr. exact Hr.
Qed.

Lemma date_column_primitive js (rows : list (list JsVal)) :
  Forall (fun r => is_primitive (nth 0 r JUndefined) = true) rows ->
  exists ds, date_column js (JArr <$> rows) = Ok ds.
Proof.
  intros Hprim. apply date_column_accepted.
  eapply Forall_impl; [exact Hprim|]. intros r. apply primitive_accepted.
Qed.

Lemma date_column_lookup js (rows : list (list JsVal)) ds i r :
  date_column js (JArr <$> rows) = Ok ds ->
  rows !! i = Some r -> 0 < length r ->
  Ok <$> ds !! i = new_Date js <$> r !! 0.
Proof.
  intros Hds Hr Hlen.
  rewrite (date_column_arrays _ _ (fmap_JArr_arrays rows)) in Hds.
  rewrite (Array_map_lookup _ _ _ i (JArr r) Hds)
    by now rewrite list_lookup_fmap, Hr.
  destruct (lookup_lt_is_Some_2 r 0 Hlen) as [x Hx].
  rewrite Hx. simpl. do 2 f_equal. now apply nth_lookup_Some.
Qed.

(** Every invocation follows one of the paths. *)
Lemma fetch_path_total js m symbol timeframe limit tr :
  fetch_path js m symbol timeframe limit tr
    (fetchOhlcvData js m symbol timeframe limit tr).
Proof.
  destruct (supports_fetchOHLCV m) eqn:Hsup.
  2: { rewrite fetch_unsupported by assumption. now constructor. }
  destruct (ex_fetchOHLCV (exchange m) tr (request_of symbol timeframe limit))
    as [v|reason] eqn:Hout.
  2: { rewrite (fetch_rejected_with _ _ _ _ _ _ reason Hsup Hout).
       destruct (message_text js reason) as [t|e] eqn:Htext.
       - now apply (path_rejected _ _ _ _ _ _ reason t).
       - now apply (path_escaped _ _ _ _ _ _ reason e). }
  destruct (validate_response_cases v)
    as [(rows & -> & Hne & Hall & Hval)
       |[[Hshape Hval]|(rows & k & -> & Hk & Hbefore & Hbad & Hval)]].
  - rewrite (fetch_validated _ _ _ _ _ _ _ rows Hsup Hout Hval)
      by (eapply Forall_impl; [exact Hall|]; apply malformed_row_array).
    destruct (date_column js rows) as [ds|e] eqn:Hds.
    + now apply (path_series _ _ _ _ _ _ rows ds).
    + now apply (path_bad_date _ _ _ _ _ _ rows e).
  - rewrite (fetch_resolved _ _ _ _ _ _ v Hsup Hout), Hval.
    now apply (path_no_data _ _ _ _ _ _ v).
  - rewrite (fetch_resolved _ _ _ _ _ _ _ Hsup Hout), Hval.
    now apply (path_malformed_row _ _ _ _ _ _ rows k).
Qed.

(** ** The claims about fetchOhlcvData *)

(** C1. When the provider declares support and answers with a
    well-formed response, N >= 1 rows, each an array of at least six
    fields that starts with a scalar (a primitive value, not an object),
    [fetchOhlcvData] returns a price series whose six columns have length
    N, and at every row index the date is the timestamp [new Date] makes
    of field 0 and the opening, high, low, closing and volume are fields 1
    to 5 of that row. *)
Theorem fetch_wellformed_columns
    (js : Builtins) (m : Module) (symbol timeframe : string) (limit : Z)
    (tr : list Event) (rows : list (list JsVal)) :
  supports_fetchOHLCV m = true ->
  ex_fetchOHLCV (exchange m) tr (request_of symbol timeframe limit)
    = Resolved (JArr (JArr <$> rows)) ->
  1 <= length rows ->
  Forall (fun r => 6 <= length r) rows ->
  Forall (fun r => is_primitive (nth 0 r JUndefined) = true) rows ->
  exists ps,
    fst (fetchOhlcvData js m symbol timeframe limit tr) = Ok ps /\
    (length (dates ps) = length rows /\ length (openings ps) = length rows /\
     length (highs ps) = length rows /\ length (lows ps) = length rows /\
     length (closings ps) = length rows /\ length (volumes ps) = length rows) /\
    forall i r, rows !! i = Some r ->
      Ok <$> dates ps !! i = new_Date js <$> r !! 0 /\
      openings ps !! i = r !! 1 /\ highs ps !! i = r !! 2 /\
      lows ps !! i = r !! 3 /\ closings ps !! i = r !! 4 /\
      volumes ps !! i = r !! 5.
Proof.
  intros Hsup Hres Hlen Hall Hprim.
  pose proof (validate_response_wellformed rows Hlen Hall) as Hval.
  destruct (date_column_primitive js rows Hprim) as [ds Hds].
  rewrite (fetch_validated js m symbol timeframe limit tr _ _ Hsup Hres Hval
             (fmap_JArr_arrays rows)), Hds.
  eexists. split; [reflexivity|]. simpl. split.
  - rewrite (Array_map_length _ _ _ Hds), ?length_map, ?length_fmap. tauto.
  - intros i r Hr.
    assert (6 <= length r) as H6
      by (rewrite Forall_lookup in Hall; exact (Hall i r Hr)).
    rewrite (date_column_lookup js rows ds i r Hds Hr) by lia.
    rewrite !(field_column_lookup _ rows i r Hr) by lia.
    tauto.
Qed.

Lemma fetch_wellformed_columns_witness :
  exists ps,
    fst (fetchOhlcvData sample_builtins
           (sample_module (JBool true) (Resolved (JArr (JArr <$> sample_rows))))
           "BTC/USDT" "1h" 2 []) = Ok ps /\
    (length (dates ps) = 2 /\ length (openings ps) = 2 /\
     length (highs ps) = 2 /\ length (lows ps) = 2 /\
     length (closings ps) = 2 /\ length (volumes ps) = 2) /\
    forall i r, sample_rows !! i = Some r ->
      Ok <$> dates ps !! i = new_Date sample_builtins <$> r !! 0 /\
      openings ps !! i = r !! 1 /\ highs ps !! i = r !! 2 /\
      lows ps !! i = r !! 3 /\ closings ps !! i = r !! 4 /\
      volumes ps !! i = r !! 5.
Proof.
  apply (fetch_wellformed_columns sample_builtins
           (sample_module (JBool true) (Resolved (JArr (JArr <$> sample_rows))))
           "BTC/USDT" "1h" 2 [] sample_rows).
  - vm_compute. reflexivity.
  - reflexivity.
  - simpl. lia.
  - repeat constructor; simpl; lia.
  - repeat constructor.
Defined.

Lemma series_of_rows_invariant ds rows :
  rows <> [] -> length ds = length rows ->
  series_invariant (series_of_rows ds rows).
Proof.
  intros Hne Hds. unfold series_invariant, series_of_rows. simpl.
  rewrite !length_map, Hds. repeat split; try reflexivity.
  destruct rows; [congruence|simpl; lia].
Qed.

(** C2. Every invocation either returns a price series satisfying the
    invariant of the data model (six columns of one length, at least 1),
    or throws: in the second case the caller has an error and nothing
    else. *)
Theorem fetch_series_or_error
    (js : Builtins) (m : Module) (symbol timeframe : string) (limit : Z)
    (tr : list Event) :
  (exists ps, fst (fetchOhlcvData js m symbol timeframe limit tr) = Ok ps /\
              series_invariant ps) \/
  (exists e, fst (fetchOhlcvData js m symbol timeframe limit tr) = Throw e).
Proof.
  destruct (fetch_path_total js m symbol timeframe limit tr) as
    [| | | | | |rows ds Hsup Hout Hne Hall Hds];
    try (right; eexists; reflexivity).
  left. eexists. split; [reflexivity|].
  apply series_of_rows_invariant; [assumption|].
  rewrite date_column_arrays in Hds
    by (eapply Forall_impl; [exact Hall|]; apply malformed_row_array).
  exact (Array_map_length _ _ _ Hds).
Qed.

(** Counterexample to C3 in its original wording (every failing
    invocation): when the provider call rejects with [null], reading
    [error.message] in the [catch] clause throws, and that TypeError
    leaves the function without the prefix. *)
Lemma fetch_null_rejection_escapes :
  ~ exists original,
      fst (fetchOhlcvData sample_builtins
             (sample_module (JBool true) (Rejected (Value JNull)))
             "BTC/USDT" "1h" 100 [])
      = Throw (Error ("Failed to fetch OHLCV data: " +:+ original)).
Proof. intros [original H]. vm_compute in H. discriminate. Qed.

(** C3, amended. Whenever an invocation fails, and the failure is not a
    rejection with a reason whose [message] cannot be read or converted to
    a string, the error that reaches the caller is an [Error] whose
    message is "Failed to fetch OHLCV data: " followed by the message of
    the original failure: the capability error, the error object the
    provider call rejected with, the text of the [message] property of
    any other reason ("undefined" when it has none), one of the two
    malformed-response errors, or the TypeError of a field 0 that
    [new Date] cannot convert. *)
Theorem fetch_error_uniform
    (js : Builtins) (m : Module) (symbol timeframe : string) (limit : Z)
    (tr : list Event) (e : JsError) :
  fst (fetchOhlcvData js m symbol timeframe limit tr) = Throw e ->
  (forall reason,
      ex_fetchOHLCV (exchange m) tr (request_of symbol timeframe limit)
        = Rejected reason ->
      exists t, message_text js reason = Ok t) ->
  exists original,
    e = Error ("Failed to fetch OHLCV data: " +:+ original) /\
    ((supports_fetchOHLCV m = false /\
      original = exid m +:+ " does not support fetchOHLCV") \/
     (exists e0 : JsError,
        ex_fetchOHLCV (exchange m) tr (request_of symbol timeframe limit)
          = Rejected (ErrorObject e0) /\
        original = message e0) \/
     (exists v,
        ex_fetchOHLCV (exchange m) tr (request_of symbol timeframe limit)
          = Rejected (Value v) /\
        message_text js (Value v) = Ok original) \/
     (exists v,
        ex_fetchOHLCV (exchange m) tr (request_of symbol timeframe limit)
          = Resolved v /\
        (Array_isArray v = false \/ v = JArr []) /\
        original = "No OHLCV data returned from exchange") \/
     (exists rows k,
        ex_fetchOHLCV (exchange m) tr (request_of symbol timeframe limit)
          = Resolved (JArr rows) /\
        k < length rows /\
        malformed_row (nth k rows JUndefined) = true /\
        original = "Malformed OHLCV row at index " +:+ string_of_index k
                   +:+ ": expected 6 values") \/
     (exists rows e1,
        ex_fetchOHLCV (exchange m) tr (request_of symbol timeframe limit)
          = Resolved (JArr rows) /\
        date_column js rows = Throw e1 /\
        original = message e1)).
Proof.
  intros He Hreadable.
  destruct (fetch_path_total js m symbol timeframe limit tr) as
    [Hsup|reason t Hsup Hout Htext|reason e' Hsup Hout Htext
    |v Hsup Hout Hshape|rows k Hsup Hout Hk Hbefore Hbad
    |rows e1 Hsup Hout Hne Hall Hds|rows ds Hsup Hout Hne Hall Hds];
    simpl in He; inversion He; subst; clear He.
  - eexists. split; [reflexivity|]. left. split; [assumption|reflexivity].
  - eexists. split; [reflexivity|]. right.
    destruct reason as [e0|v].
    + left. exists e0. split; [assumption|].
      rewrite message_text_error in Htext. congruence.
    + right. left. exists v. split; assumption.
  - destruct (Hreadable reason Hout) as [t Ht]. congruence.
  - eexists. split; [reflexivity|]. do 3 right. left.
    exists v. repeat split; assumption.
  - eexists. split; [reflexivity|]. do 4 right. left.
    exists rows, k. repeat split; assumption.
  - eexists. split; [reflexivity|]. do 5 right.
    exists rows, e1. repeat split; assumption.
Qed.

Lemma fetch_error_uniform_witness :
  exists original,
    Error "Failed to fetch OHLCV data: undefined"
      = Error ("Failed to fetch OHLCV data: " +:+ original) /\
    ((supports_fetchOHLCV
        (sample_module (JBool true) (Rejected (Value (JStr "timeout")))) = false /\
      original = "binance" +:+ " does not support fetchOHLCV") \/
     (exists e0 : JsError,
        Rejected (Value (JStr "timeout")) = Rejected (ErrorObject e0) /\
        original = message e0) \/
     (exists v,
        Rejected (Value (JStr "timeout")) = Rejected (Value v) /\
        message_text sample_builtins (Value v) = Ok original) \/
     (exists v, Rejected (Value (JStr "timeout")) = Resolved v /\
                (Array_isArray v = false \/ v = JArr []) /\
                original = "No OHLCV data returned from exchange") \/
     (exists rows k,
        Rejected (Value (JStr "timeout")) = Resolved (JArr rows) /\
        k < length rows /\
        malformed_row (nth k rows JUndefined) = true /\
        original = "Malformed OHLCV row at index " +:+ string_of_index k
                   +:+ ": expected 6 values") \/
     (exists rows e1,
        Rejected (Value (JStr "timeout")) = Resolved (JArr rows) /\
        date_column sample_builtins rows = Throw e1 /\
        original = message e1)).
Proof.
  apply (fetch_error_uniform sample_builtins
           (sample_module (JBool true) (Rejected (Value (JStr "timeout"))))
           "BTC/USDT" "1h" 100 []
           (Error "Failed to fetch OHLCV data: undefined")).
  - vm_compute. reflexivity.
  - intros reason Hreason. inversion Hreason; subst.
    eexists. vm_compute. reflexivity.
Defined.

(** C4. When the provider declares support and answers with rows that
    are all arrays, and row [i] is the first with fewer than six fields,
    the invocation fails with the malformed-row error whose message names
    index [i], behind the uniform prefix. *)
Theorem fetch_short_row_named
    (js : Builtins) (m : Module) (symbol timeframe : string) (limit : Z)
    (tr : list Event)
    (rows : list (list JsVal)) (i : nat) (r : list JsVal) :
  supports_fetchOHLCV m = true ->
  ex_fetchOHLCV (exchange m) tr (request_of symbol timeframe limit)
    = Resolved (JArr (JArr <$> rows)) ->
  rows !! i = Some r ->
  length r < 6 ->
  (forall j r', j < i -> rows !! j = Some r' -> 6 <= length r') ->
  fst (fetchOhlcvData js m symbol timeframe limit tr) =
  Throw (Error ("Failed to fetch OHLCV data: Malformed OHLCV row at index "
                +:+ string_of_index i +:+ ": expected 6 values")).
Proof.
  intros Hsup Hout Hi Hshort Hbefore.
  rewrite (fetch_resolved _ _ _ _ _ _ _ Hsup Hout). simpl.
  rewrite length_fmap.
  assert (i < length rows) as Hlt by (eapply lookup_lt_Some; eassumption).
  destruct (Nat.eqb_spec (length rows) 0) as [H0|_]; [lia|].
  rewrite (validate_rows_first _ _ 0 i); [reflexivity|lia| |].
  - intros j Hj.
    destruct (lookup_lt_is_Some_2 rows j) as [r' Hr']; [lia|].
    rewrite (nth_JArr_lookup _ _ _ Hr'), malformed_row_JArr.
    apply Nat.ltb_ge. apply (Hbefore j r'); [lia|assumption].
  - rewrite (nth_JArr_lookup _ _ _ Hi), malformed_row_JArr.
    now apply Nat.ltb_lt.
Qed.

Lemma fetch_short_row_named_witness :
  fst (fetchOhlcvData sample_builtins
         (sample_module (JBool true) (Resolved (JArr (JArr <$> short_rows))))
         "BTC/USDT" "1h" 5 []) =
  Throw (Error
    "Failed to fetch OHLCV data: Malformed OHLCV row at index 3: expected 6 values").
Proof.
  apply (fetch_short_row_named sample_builtins
           (sample_module (JBool true) (Resolved (JArr (JArr <$> short_rows))))
           "BTC/USDT" "1h" 5 [] short_rows 3 [JNum 4; JNum 2; JNum 3; JNum 4]).
  - vm_compute. reflexivity.
  - reflexivity.
  - reflexivity.
  - simpl. lia.
  - intros j r' Hj Hr'.
    destruct j as [|[|[|j]]]; [| | |lia]; inversion Hr'; subst; simpl; lia.
Defined.

(** C5. When the provider declares support and answers with a value that
    is not an array, or with the empty array, the invocation fails with
    the no-data error behind the uniform prefix; no price series is
    returned. *)
Theorem fetch_empty_or_not_array
    (js : Builtins) (m : Module) (symbol timeframe : string) (limit : Z)
    (tr : list Event)
    (v : JsVal) :
  supports_fetchOHLCV m = true ->
  ex_fetchOHLCV (exchange m) tr (request_of symbol timeframe limit) = Resolved v ->
  Array_isArray v = false \/ v = JArr [] ->
  fst (fetchOhlcvData js m symbol timeframe limit tr) =
  Throw (Error "Failed to fetch OHLCV data: No OHLCV data returned from exchange").
Proof.
  intros Hsup Hout Hshape.
  rewrite (fetch_resolved _ _ _ _ _ _ _ Hsup Hout). simpl.
  destruct Hshape as [Hna| ->]; [|reflexivity].
  destruct v; try reflexivity. discriminate.
Qed.

Lemma fetch_empty_or_not_array_witness :
  fst (fetchOhlcvData sample_builtins (sample_module (JBool true) (Resolved (JArr [])))
         "BTC/USDT" "1h" 100 []) =
  Throw (Error "Failed to fetch OHLCV data: No OHLCV data returned from exchange").
Proof.
  apply (fetch_empty_or_not_array sample_builtins
           (sample_module (JBool true) (Resolved (JArr [])))
           "BTC/USDT" "1h" 100 [] (JArr [])).
  - vm_compute. reflexivity.
  - reflexivity.
  - right. reflexivity.
Defined.

(** C6. When the capability table of the configured client does not
    declare [fetchOHLCV], the invocation fails with the capability error,
    which names the provider, behind the uniform prefix, and the trace is
    unchanged: no request has been sent to the provider. *)
Theorem fetch_unsupported_no_request
    (js : Builtins) (m : Module) (symbol timeframe : string) (limit : Z)
    (tr : list Event) :
  supports_fetchOHLCV m = false ->
  fetchOhlcvData js m symbol timeframe limit tr =
    (Throw (Error ("Failed to fetch OHLCV data: " +:+ exid m
                   +:+ " does not support fetchOHLCV")), tr) /\
  requests_by (fetchOhlcvData js m symbol timeframe limit) tr = 0.
Proof.
  intros Hsup. unfold requests_by.
  rewrite (fetch_unsupported _ _ _ _ _ _ Hsup). split; [reflexivity|].
  simpl. lia.
Qed.

Lemma fetch_unsupported_no_request_witness :
  fetchOhlcvData sample_builtins (sample_module (JBool false) (Resolved (JArr (JArr <$> sample_rows))))
    "BTC/USDT" "1h" 100 [] =
    (Throw (Error "Failed to fetch OHLCV data: binance does not support fetchOHLCV"),
     []) /\
  requests_by
    (fetchOhlcvData sample_builtins
       (sample_module (JBool false) (Resolved (JArr (JArr <$> sample_rows))))
       "BTC/USDT" "1h" 100) [] = 0.
Proof.
  apply (fetch_unsupported_no_request sample_builtins
           (sample_module (JBool false) (Resolved (JArr (JArr <$> sample_rows))))
           "BTC/USDT" "1h" 100 []).
  vm_compute. reflexivity.
Defined.

(** ** Requests to the provider *)

Lemma fetch_requests_app tr1 tr2 :
  fetch_requests (tr1 ++ tr2) = fetch_requests tr1 ++ fetch_requests tr2.
Proof.
  induction tr1 as [|[id opts|req] tr1 IH]; simpl; [reflexivity|assumption|].
  now rewrite IH.
Qed.

(** The trace an invocation leaves: the request is added exactly when
    the capability check passes. *)
Lemma fetch_trace js m symbol timeframe limit tr :
  snd (fetchOhlcvData js m symbol timeframe limit tr) =
  tr ++ (if supports_fetchOHLCV m
         then [EvFetchOHLCV (request_of symbol timeframe limit)] else []).
Proof.
  destruct (fetch_path_total js m symbol timeframe limit tr) as
    [Hsup|reason t Hsup|reason e Hsup|v Hsup|rows k Hsup|rows e Hsup
    |rows ds Hsup]; rewrite Hsup; simpl;
    [now rewrite app_nil_r|reflexivity..].
Qed.

(** Counterexample to C8 in its original wording (exactly one request per
    invocation): under a client that does not declare [fetchOHLCV] an
    invocation sends no request at all. *)
Lemma fetch_not_always_one_request :
  requests_by
    (fetchOhlcvData sample_builtins
       (sample_module (JBool false) (Resolved (JArr (JArr <$> sample_rows))))
       "BTC/USDT" "1h" 100) [] <> 1.
Proof. vm_compute. discriminate. Qed.

(** C8, amended. An invocation sends one request to the provider when the
    client declares [fetchOHLCV] and none when it does not, so never more
    than one and never a retry; and its result is determined by the
    provider identifier, the capability flag, and the provider's answer to
    that one request: two invocations that agree on these return the same
    result, whatever happened before them. *)
Theorem fetch_at_most_one_request
    (js : Builtins) (m : Module) (symbol timeframe : string) (limit : Z)
    (tr : list Event) :
  snd (fetchOhlcvData js m symbol timeframe limit tr) =
    tr ++ (if supports_fetchOHLCV m
           then [EvFetchOHLCV (request_of symbol timeframe limit)] else []) /\
  requests_by (fetchOhlcvData js m symbol timeframe limit) tr =
    (if supports_fetchOHLCV m then 1 else 0) /\
  forall m' tr',
    exid m' = exid m ->
    supports_fetchOHLCV m' = supports_fetchOHLCV m ->
    ex_fetchOHLCV (exchange m') tr' (request_of symbol timeframe limit) =
    ex_fetchOHLCV (exchange m) tr (request_of symbol timeframe limit) ->
    fst (fetchOhlcvData js m' symbol timeframe limit tr') =
    fst (fetchOhlcvData js m symbol timeframe limit tr).
Proof.
  split; [apply fetch_trace|]. split.
  - unfold requests_by. rewrite fetch_trace, fetch_requests_app, length_app.
    destruct (supports_fetchOHLCV m); simpl; lia.
  - intros m' tr' Hid Hcap Hans.
    destruct (supports_fetchOHLCV m) eqn:Hsup.
    + destruct (ex_fetchOHLCV (exchange m) tr (request_of symbol timeframe limit))
        as [v|reason] eqn:Hout.
      * rewrite (fetch_resolved _ _ _ _ _ _ v Hcap Hans).
        now rewrite (fetch_resolved _ _ _ _ _ _ v Hsup Hout).
      * rewrite (fetch_rejected_with _ _ _ _ _ _ reason Hcap Hans).
        now rewrite (fetch_rejected_with _ _ _ _ _ _ reason Hsup Hout).
    + rewrite (fetch_unsupported _ _ _ _ _ _ Hcap).
      rewrite (fetch_unsupported _ _ _ _ _ _ Hsup).
      unfold capability_message. now rewrite Hid.
Qed.

Lemma fetch_at_most_one_request_witness :
  requests_by
    (fetchOhlcvData sample_builtins
       (sample_module (JBool true) (Resolved (JArr (JArr <$> sample_rows))))
       "BTC/USDT" "1h" 2) [] = 1 /\
  fst (fetchOhlcvData sample_builtins
         (sample_module (JStr "emulated") (Resolved (JArr (JArr <$> sample_rows))))
         "BTC/USDT" "1h" 2 [EvFetchOHLCV (request_of "ETH/USDT" "1d" 7)]) =
  fst (fetchOhlcvData sample_builtins
         (sample_module (JBool true) (Resolved (JArr (JArr <$> sample_rows))))
         "BTC/USDT" "1h" 2 []).
Proof.
  destruct (fetch_at_most_one_request sample_builtins
              (sample_module (JBool true) (Resolved (JArr (JArr <$> sample_rows))))
              "BTC/USDT" "1h" 2 []) as (_ & Hcount & Hsame).
  split.
  - exact Hcount.
  - apply Hsame; vm_compute; reflexivity.
Defined.

(** ** Module start-up *)

Lemma Set_has_elem_of (s : list string) (x : string) :
  Set_has s x = true <-> x ∈ s.
Proof.
  unfold Set_has. rewrite existsb_exists, list_elem_of_In. split.
  - intros (y & Hin & Heq). apply String.eqb_eq in Heq. now subst.
  - intros Hin. exists x. split; [assumption|apply String.eqb_refl].
Qed.

Lemma Set_has_not_elem_of (s : list string) (x : string) :
  x ∉ s -> Set_has s x = false.
Proof.
  intros Hnot. destruct (Set_has s x) eqn:H; [|reflexivity].
  apply Set_has_elem_of in H. contradiction.
Qed.

(** C7. When the configured identifier is not in the allow-list, loading
    the module throws an error whose message quotes the identifier and
    lists the ten allowed ones, and the trace is unchanged: no client has
    been constructed and no module instance exists. *)
Theorem load_rejects_unlisted
    (env : gmap string string) (ccxt : gmap string (ClientOptions -> Exchange))
    (tr : list Event) :
  read_exid env ∉ ALLOWED_EXCHANGES ->
  load_module env ccxt tr =
    (Throw (Error ("Unsupported exchange: " +:+ dquote +:+ read_exid env
                   +:+ dquote +:+ ". Allowed: binance, kraken, coinbase, bybit, "
                   +:+ "okx, kucoin, gate, huobi, bitfinex, mexc")), tr) /\
  constructions (snd (load_module env ccxt tr)) = constructions tr.
Proof.
  intros Hnot. unfold load_module.
  rewrite (Set_has_not_elem_of _ _ Hnot). simpl. split; reflexivity.
Qed.

Lemma load_rejects_unlisted_witness :
  read_exid {[ "EXCHANGE_NAME" := "not-a-real-exchange" ]} = "not-a-real-exchange" /\
  load_module {[ "EXCHANGE_NAME" := "not-a-real-exchange" ]} sample_ccxt [] =
    (Throw (Error ("Unsupported exchange: " +:+ dquote
                   +:+ read_exid {[ "EXCHANGE_NAME" := "not-a-real-exchange" ]}
                   +:+ dquote +:+ ". Allowed: binance, kraken, coinbase, bybit, "
                   +:+ "okx, kucoin, gate, huobi, bitfinex, mexc")), []) /\
  constructions
    (snd (load_module {[ "EXCHANGE_NAME" := "not-a-real-exchange" ]}
            sample_ccxt [])) = constructions [].
Proof.
  split; [vm_compute; reflexivity|].
  apply (load_rejects_unlisted {[ "EXCHANGE_NAME" := "not-a-real-exchange" ]}
           sample_ccxt []).
  apply (bool_decide_unpack _). vm_compute. exact I.
Defined.

(** C10. With [EXCHANGE_NAME] unset the identifier is "binance", which is
    in the allow-list; given that the client library exports a class of
    that name, loading the module succeeds, constructs that one client
    with rate limiting enabled, and every later invocation of
    [fetchOhlcvData] on the loaded module runs against that client. *)
Theorem load_defaults_to_binance
    (js : Builtins) (env : gmap string string)
    (ccxt : gmap string (ClientOptions -> Exchange))
    (ctor : ClientOptions -> Exchange) (tr : list Event) :
  env !! "EXCHANGE_NAME" = None ->
  ccxt !! "binance" = Some ctor ->
  read_exid env = "binance" /\
  "binance" ∈ ALLOWED_EXCHANGES /\
  load_module env ccxt tr =
    (Ok (mkModule "binance" (ctor (mkOptions true))),
     tr ++ [EvNew "binance" (mkOptions true)]) /\
  forall m, fst (load_module env ccxt tr) = Ok m ->
    exid m = "binance" /\ exchange m = ctor (mkOptions true) /\
    forall symbol timeframe limit tr',
      fetch_path js (mkModule "binance" (ctor (mkOptions true)))
        symbol timeframe limit tr'
        (fetchOhlcvData js m symbol timeframe limit tr').
Proof.
  intros Henv Hccxt.
  assert (read_exid env = "binance") as Hid by (unfold read_exid; now rewrite Henv).
  assert (load_module env ccxt tr =
          (Ok (mkModule "binance" (ctor (mkOptions true))),
           tr ++ [EvNew "binance" (mkOptions true)])) as Hload.
  { unfold load_module. rewrite Hid. simpl.
    unfold bind, new_exchange. now rewrite Hccxt. }
  split; [assumption|]. split; [apply Set_has_elem_of; reflexivity|].
  split; [assumption|].
  intros m Hm. rewrite Hload in Hm. simpl in Hm. inversion Hm; subst. simpl.
  split; [reflexivity|]. split; [reflexivity|].
  intros symbol timeframe limit tr'. apply fetch_path_total.
Qed.

Lemma load_defaults_to_binance_witness :
  read_exid ∅ = "binance" /\
  "binance" ∈ ALLOWED_EXCHANGES /\
  load_module ∅ sample_ccxt [] =
    (Ok (mkModule "binance"
           (sample_exchange (JBool true) (Resolved (JArr (JArr <$> sample_rows))))),
     [] ++ [EvNew "binance" (mkOptions true)]) /\
  forall m, fst (load_module ∅ sample_ccxt []) = Ok m ->
    exid m = "binance" /\
    exchange m =
      sample_exchange (JBool true) (Resolved (JArr (JArr <$> sample_rows))) /\
    forall symbol timeframe limit tr',
      fetch_path sample_builtins
        (mkModule "binance"
           (sample_exchange (JBool true) (Resolved (JArr (JArr <$> sample_rows)))))
        symbol timeframe limit tr'
        (fetchOhlcvData sample_builtins m symbol timeframe limit tr').
Proof.
  apply (load_defaults_to_binance sample_builtins ∅ sample_ccxt
           (fun _ => sample_exchange (JBool true)
                       (Resolved (JArr (JArr <$> sample_rows)))) []).
  - vm_compute. reflexivity.
  - vm_compute. reflexivity.
Defined.

(** ** The tool callbacks *)

Section ToolErrors.
Variable js : Builtins.
Variable JSON_stringify : JsVal -> Res JsVal.
Variable m : Module.

(** What a callback returns, step by step. *)
Lemma tool_callback_run indicator symbol timeframe limit tr :
  tool_callback js JSON_stringify m indicator symbol timeframe limit tr =
  (Ok (match fst (fetchOhlcvData js m symbol timeframe limit tr) with
       | Throw e => error_payload e
       | Ok asset =>
           match indicator asset with
           | Throw e => error_payload e
           | Ok result =>
               match JSON_stringify result with
               | Throw e => error_payload e
               | Ok t => text_result t
               end
           end
       end),
   snd (fetchOhlcvData js m symbol timeframe limit tr)).
Proof.
  unfold tool_callback, try_catch, bind, lift, ret.
  destruct (fetchOhlcvData js m symbol timeframe limit tr) as [[asset|e] tr'];
    simpl; [|reflexivity].
  destruct (indicator asset) as [result|e]; [|reflexivity].
  destruct (JSON_stringify result); reflexivity.
Qed.

End ToolErrors.



(** * Further properties of the code *)

(** ** When an invocation returns *)

Lemma malformed_row_wellformed row :
  malformed_row row = false <-> wellformed_row row.
Proof.
  unfold malformed_row, wellformed_row. split.
  - destruct row as [| | | | | |fields|]; simpl; try discriminate.
    intros H. exists fields. split; [reflexivity|]. now apply Nat.ltb_ge.
  - intros (fields & -> & Hlen). simpl. now apply Nat.ltb_ge.
Qed.

Lemma validate_response_ok rows :
  rows <> [] ->
  Forall (fun row => malformed_row row = false) rows ->
  validate_response (JArr rows) = Ok rows.
Proof.
  intros Hne Hall. unfold validate_response.
  destruct (Nat.eqb_spec (length rows) 0) as [H0|_].
  - destruct rows; [congruence|discriminate].
  - rewrite validate_rows_ok; [reflexivity|].
    intros j Hj. rewrite Forall_lookup in Hall.
    destruct (lookup_lt_is_Some_2 rows j) as [row Hrow]; [lia|].
    rewrite (nth_lookup_Some _ _ JUndefined _ Hrow). exact (Hall j row Hrow).
Qed.

(** X1. An invocation returns a price series exactly when the client
    declares support, the provider resolves with a non-empty array whose
    rows are all arrays of at least six fields, and [new Date] accepts
    field 0 of every row; no other content of the fields matters. *)
Theorem fetch_returns_iff
    (js : Builtins) (m : Module) (symbol timeframe : string) (limit : Z)
    (tr : list Event) :
  (exists ps, fst (fetchOhlcvData js m symbol timeframe limit tr) = Ok ps) <->
  (supports_fetchOHLCV m = true /\
   exists rows,
     ex_fetchOHLCV (exchange m) tr (request_of symbol timeframe limit)
       = Resolved (JArr rows) /\
     rows <> [] /\ Forall wellformed_row rows /\
     Forall (fun row => date_accepted js (field 0 row)) rows).
Proof.
  split.
  - intros [ps Hps].
    destruct (fetch_path_total js m symbol timeframe limit tr) as
      [| | | | | |rows ds Hsup Hout Hne Hall Hds];
      simpl in Hps; try discriminate.
    split; [assumption|]. exists rows. repeat split; try assumption.
    + eapply Forall_impl; [exact Hall|]. intros row.
      apply malformed_row_wellformed.
    + rewrite date_column_arrays in Hds
        by (eapply Forall_impl; [exact Hall|]; apply malformed_row_array).
      apply Array_map_ok_iff. now exists ds.
  - intros (Hsup & rows & Hout & Hne & Hall & Hdates).
    assert (Forall (fun row => malformed_row row = false) rows) as Hok.
    { eapply Forall_impl; [exact Hall|]. intros row. apply malformed_row_wellformed. }
    assert (Forall (fun row => Array_isArray row = true) rows) as Harr.
    { eapply Forall_impl; [exact Hok|]. apply malformed_row_array. }
    apply Array_map_ok_iff in Hdates. destruct Hdates as [ds Hds].
    rewrite <- (date_column_arrays js rows Harr) in Hds.
    exists (series_of_rows ds rows).
    rewrite (fetch_validated _ _ _ _ _ _ _ rows Hsup Hout
               (validate_response_ok rows Hne Hok) Harr).
    now rewrite Hds.
Qed.

(** X2. Whatever the rows are, the error names the first row that is not
    an array or has fewer than six fields: a [null] row, a number or a
    string in place of a row is reported like a short row. *)
Theorem fetch_first_malformed_row
    (js : Builtins) (m : Module) (symbol timeframe : string) (limit : Z) (tr : list Event)
    (rows : list JsVal) (k : nat) (row : JsVal) :
  supports_fetchOHLCV m = true ->
  ex_fetchOHLCV (exchange m) tr (request_of symbol timeframe limit)
    = Resolved (JArr rows) ->
  rows !! k = Some row ->
  ~ wellformed_row row ->
  (forall j row', j < k -> rows !! j = Some row' -> wellformed_row row') ->
  fst (fetchOhlcvData js m symbol timeframe limit tr) =
  Throw (Error ("Failed to fetch OHLCV data: Malformed OHLCV row at index "
                +:+ string_of_index k +:+ ": expected 6 values")).
Proof.
  intros Hsup Hout Hk Hbad Hbefore.
  rewrite (fetch_resolved _ _ _ _ _ _ _ Hsup Hout). simpl.
  assert (k < length rows) as Hlt by (eapply lookup_lt_Some; eassumption).
  destruct (Nat.eqb_spec (length rows) 0) as [H0|_]; [lia|].
  rewrite (validate_rows_first _ _ 0 k); [reflexivity|lia| |].
  - intros j Hj.
    destruct (lookup_lt_is_Some_2 rows j) as [row' Hrow']; [lia|].
    rewrite (nth_lookup_Some _ _ JUndefined _ Hrow').
    apply malformed_row_wellformed. apply (Hbefore j); [lia|assumption].
  - rewrite (nth_lookup_Some _ _ JUndefined _ Hk).
    destruct (malformed_row row) eqn:Hm; [reflexivity|].
    exfalso. apply Hbad. now apply malformed_row_wellformed.
Qed.

Lemma fetch_first_malformed_row_witness :
  fst (fetchOhlcvData sample_builtins
         (sample_module (JBool true)
            (Resolved (JArr [JArr (bar 1 2 3 4 5 6); JNull; JArr []])))
         "BTC/USDT" "1h" 3 []) =
  Throw (Error
    "Failed to fetch OHLCV data: Malformed OHLCV row at index 1: expected 6 values").
Proof.
  apply (fetch_first_malformed_row sample_builtins
           (sample_module (JBool true)
              (Resolved (JArr [JArr (bar 1 2 3 4 5 6); JNull; JArr []])))
           "BTC/USDT" "1h" 3 [] [JArr (bar 1 2 3 4 5 6); JNull; JArr []] 1 JNull).
  - vm_compute. reflexivity.
  - reflexivity.
  - reflexivity.
  - intros (fields & Hrow & _). discriminate.
  - intros j row' Hj Hrow'. destruct j as [|j]; [|lia].
    inversion Hrow'; subst. eexists. split; [reflexivity|]. simpl. lia.
Defined.

(** ** What the transposition keeps and what it drops *)

Lemma field_take k (r : list JsVal) :
  k < 6 -> field k (JArr (take 6 r)) = field k (JArr r).
Proof.
  intros Hk. simpl. rewrite !nth_lookup. now rewrite lookup_take_lt.
Qed.

Lemma map_rows_take (f : JsVal -> JsVal) (rows : list (list JsVal)) :
  (forall r, f (JArr (take 6 r)) = f (JArr r)) ->
  map f (JArr <$> (take 6 <$> rows)) = map f (JArr <$> rows).
Proof.
  intros Hf. induction rows as [|r rows IH]; [reflexivity|].
  cbn [fmap list_fmap map]. now rewrite Hf, <- IH.
Qed.

Lemma series_of_rows_take ds (rows : list (list JsVal)) :
  series_of_rows ds (JArr <$> (take 6 <$> rows)) = series_of_rows ds (JArr <$> rows).
Proof.
  unfold series_of_rows.
  now rewrite !(map_rows_take (field _)) by (intros r; apply field_take; lia).
Qed.

Lemma date_column_take js (rows : list (list JsVal)) :
  date_column js (JArr <$> (take 6 <$> rows)) = date_column js (JArr <$> rows).
Proof.
  rewrite !date_column_arrays by apply fmap_JArr_arrays.
  induction rows as [|r rows IH]; [reflexivity|].
  cbn [fmap list_fmap Array_map]. rewrite (field_take 0 r) by lia.
  destruct (new_Date js (field 0 (JArr r))); [|reflexivity].
  cbn [fmap list_fmap] in IH. now rewrite IH.
Qed.

(** X3. Fields beyond the sixth are ignored: a response and the same
    response with every row cut to its first six fields give the same
    result. *)
Theorem fetch_ignores_extra_fields
    (js : Builtins) (m : Module) (symbol timeframe : string) (limit : Z)
    (tr tr' : list Event) (rows : list (list JsVal)) :
  supports_fetchOHLCV m = true ->
  ex_fetchOHLCV (exchange m) tr (request_of symbol timeframe limit)
    = Resolved (JArr (JArr <$> rows)) ->
  ex_fetchOHLCV (exchange m) tr' (request_of symbol timeframe limit)
    = Resolved (JArr (JArr <$> (take 6 <$> rows))) ->
  1 <= length rows ->
  Forall (fun r => 6 <= length r) rows ->
  fst (fetchOhlcvData js m symbol timeframe limit tr) =
  fst (fetchOhlcvData js m symbol timeframe limit tr').
Proof.
  intros Hsup Hout Hout' Hlen Hall.
  rewrite (fetch_validated _ _ _ _ _ _ _ _ Hsup Hout
             (validate_response_wellformed rows Hlen Hall)
             (fmap_JArr_arrays rows)).
  assert (Forall (fun r => 6 <= length r) (take 6 <$> rows)) as Hall'.
  { apply Forall_fmap. eapply Forall_impl; [exact Hall|].
    intros r Hr. cbv beta in Hr. cbn [compose]. rewrite length_take. lia. }
  assert (1 <= length (take 6 <$> rows)) as Hlen' by now rewrite length_fmap.
  rewrite (fetch_validated _ _ _ _ _ _ _ _ Hsup Hout'
             (validate_response_wellformed _ Hlen' Hall')
             (fmap_JArr_arrays _)).
  cbn [fst]. rewrite date_column_take.
  destruct (date_column js (JArr <$> rows)); [|reflexivity].
  now rewrite series_of_rows_take.
Qed.

Lemma fetch_ignores_extra_fields_witness :
  fst (fetchOhlcvData sample_builtins
         (replaying_module (Resolved (JArr (JArr <$> wide_rows)))
            (Resolved (JArr (JArr <$> (take 6 <$> wide_rows)))))
         "BTC/USDT" "1h" 2 []) =
  fst (fetchOhlcvData sample_builtins
         (replaying_module (Resolved (JArr (JArr <$> wide_rows)))
            (Resolved (JArr (JArr <$> (take 6 <$> wide_rows)))))
         "BTC/USDT" "1h" 2 [EvFetchOHLCV (request_of "BTC/USDT" "1h" 2)]).
Proof.
  apply (fetch_ignores_extra_fields sample_builtins
           (replaying_module (Resolved (JArr (JArr <$> wide_rows)))
              (Resolved (JArr (JArr <$> (take 6 <$> wide_rows)))))
           "BTC/USDT" "1h" 2 [] [EvFetchOHLCV (request_of "BTC/USDT" "1h" 2)]
           wide_rows).
  - vm_compute. reflexivity.
  - reflexivity.
  - reflexivity.
  - simpl. lia.
  - repeat constructor; simpl; lia.
Defined.

Lemma six_fields_tail (r : list JsVal) :
  length r = 6 ->
  drop 1 r = [nth 1 r JUndefined; nth 2 r JUndefined; nth 3 r JUndefined;
              nth 4 r JUndefined; nth 5 r JUndefined].
Proof.
  destruct r as [|a [|b [|c [|d [|e [|f [|g r]]]]]]]; simpl; intros H;
    try discriminate; reflexivity.
Qed.

Lemma series_of_rows_tails ds1 ds2 (rows1 rows2 : list (list JsVal)) :
  Forall (fun r => length r = 6) rows1 ->
  Forall (fun r => length r = 6) rows2 ->
  series_of_rows ds1 (JArr <$> rows1) = series_of_rows ds2 (JArr <$> rows2) ->
  ds1 = ds2 /\ drop 1 <$> rows1 = drop 1 <$> rows2.
Proof.
  intros H1 H2 Heq. unfold series_of_rows in Heq.
  injection Heq as Hd Ho Hh Hl Hc Hv. split; [assumption|]. clear Hd.
  revert rows2 H2 Ho Hh Hl Hc Hv.
  induction H1 as [|r1 rows1 Hr1 _ IH]; intros rows2 H2 Ho Hh Hl Hc Hv.
  - destruct rows2; [reflexivity|discriminate].
  - destruct H2 as [|r2 rows2 Hr2 H2]; [discriminate|].
    cbn [fmap list_fmap map] in Ho, Hh, Hl, Hc, Hv.
    injection Ho as Ho Hos. injection Hh as Hh Hhs. injection Hl as Hl Hls.
    injection Hc as Hc Hcs. injection Hv as Hv Hvs.
    simpl in Ho, Hh, Hl, Hc, Hv.
    cbn [fmap list_fmap]. f_equal.
    + rewrite (six_fields_tail r1 Hr1), (six_fields_tail r2 Hr2). congruence.
    + now apply IH.
Qed.

(** X4. Fields 1 to 5 pass through unchanged, while of field 0 only the
    date it converts to is kept: if two responses made of six-field rows
    lead to the same price series, they agree on fields 1 to 5 of every
    row, and they need not agree on field 0. *)
Theorem fetch_series_determines_fields
    (js : Builtins) (m : Module) (symbol timeframe : string) (limit : Z)
    (tr tr' : list Event) (rows rows' : list (list JsVal)) (ps : PriceSeries) :
  supports_fetchOHLCV m = true ->
  ex_fetchOHLCV (exchange m) tr (request_of symbol timeframe limit)
    = Resolved (JArr (JArr <$> rows)) ->
  ex_fetchOHLCV (exchange m) tr' (request_of symbol timeframe limit)
    = Resolved (JArr (JArr <$> rows')) ->
  1 <= length rows -> 1 <= length rows' ->
  Forall (fun r => length r = 6) rows ->
  Forall (fun r => length r = 6) rows' ->
  fst (fetchOhlcvData js m symbol timeframe limit tr) = Ok ps ->
  fst (fetchOhlcvData js m symbol timeframe limit tr') = Ok ps ->
  drop 1 <$> rows = drop 1 <$> rows'.
Proof.
  intros Hsup Hout Hout' Hlen Hlen' Hall Hall' Hps Hps'.
  assert (forall rs : list (list JsVal),
             Forall (fun r => length r = 6) rs -> Forall (fun r => 6 <= length r) rs)
    as Hweak by (intros rs Hrs; eapply Forall_impl; [exact Hrs|]; intros r Hr;
                 cbv beta in Hr; lia).
  rewrite (fetch_validated _ _ _ _ _ _ _ _ Hsup Hout
             (validate_response_wellformed rows Hlen (Hweak _ Hall))
             (fmap_JArr_arrays rows)) in Hps.
  rewrite (fetch_validated _ _ _ _ _ _ _ _ Hsup Hout'
             (validate_response_wellformed rows' Hlen' (Hweak _ Hall'))
             (fmap_JArr_arrays rows')) in Hps'.
  cbn [fst] in Hps, Hps'.
  destruct (date_column js (JArr <$> rows)) as [ds|]; [|discriminate].
  destruct (date_column js (JArr <$> rows')) as [ds'|]; [|discriminate].
  apply (series_of_rows_tails ds ds'); [assumption..|]. congruence.
Qed.

Lemma fetch_series_determines_fields_witness :
  drop 1 <$> [bar 1.5 100 110 90 105 12.5] = drop 1 <$> [bar 1.25 100 110 90 105 12.5].
Proof.
  apply (fetch_series_determines_fields sample_builtins
           (replaying_module
              (Resolved (JArr (JArr <$> [bar 1.5 100 110 90 105 12.5])))
              (Resolved (JArr (JArr <$> [bar 1.25 100 110 90 105 12.5]))))
           "BTC/USDT" "1h" 1 [] [EvFetchOHLCV (request_of "BTC/USDT" "1h" 1)]
           [bar 1.5 100 110 90 105 12.5] [bar 1.25 100 110 90 105 12.5]
           (mkPriceSeries [JDate 1] [JNum 100] [JNum 110] [JNum 90] [JNum 105]
              [JNum 12.5])).
  - vm_compute. reflexivity.
  - reflexivity.
  - reflexivity.
  - simpl. lia.
  - simpl. lia.
  - repeat constructor.
  - repeat constructor.
  - vm_compute. reflexivity.
  - vm_compute. reflexivity.
Defined.

(** X14. Validation looks at the shape of the rows only.  When every row
    is an array of at least six fields but [new Date] throws on field 0
    of some row, the invocation fails with the uniform error around the
    message of the error thrown for the first such row, after the one
    request. *)
Theorem fetch_unconvertible_timestamp
    (js : Builtins) (m : Module) (symbol timeframe : string) (limit : Z)
    (tr : list Event) (rows : list (list JsVal)) (i : nat) (r : list JsVal)
    (e : JsError) :
  supports_fetchOHLCV m = true ->
  ex_fetchOHLCV (exchange m) tr (request_of symbol timeframe limit)
    = Resolved (JArr (JArr <$> rows)) ->
  Forall (fun r => 6 <= length r) rows ->
  rows !! i = Some r ->
  new_Date js (nth 0 r JUndefined) = Throw e ->
  (forall j r', j < i -> rows !! j = Some r' ->
                date_accepted js (nth 0 r' JUndefined)) ->
  fetchOhlcvData js m symbol timeframe limit tr =
  (Throw (Error ("Failed to fetch OHLCV data: " +:+ message e)),
   tr ++ [EvFetchOHLCV (request_of symbol timeframe limit)]).
Proof.
  intros Hsup Hout Hall Hi He Hbefore.
  assert (1 <= length rows) as Hlen.
  { apply lookup_lt_Some in Hi. lia. }
  rewrite (fetch_validated _ _ _ _ _ _ _ _ Hsup Hout
             (validate_response_wellformed rows Hlen Hall)
             (fmap_JArr_arrays rows)).
  rewrite (date_column_arrays _ _ (fmap_JArr_arrays rows)).
  rewrite (Array_map_first_throw _ (JArr <$> rows) i (JArr r) e); [reflexivity| | |].
  - now rewrite list_lookup_fmap, Hi.
  - exact He.
  - intros j y Hj Hy. rewrite list_lookup_fmap in Hy.
    destruct (rows !! j) as [r'|] eqn:Hr'; [|discriminate].
    inversion Hy; subst. exact (Hbefore j r' Hj Hr').
Qed.

Lemma fetch_unconvertible_timestamp_witness :
  fetchOhlcvData sample_builtins
    (sample_module (JBool true)
       (Resolved (JArr (JArr <$> [bar 1 2 3 4 5 6;
                                  [JObj [("toString", JNull)];
                                   JNum 1; JNum 2; JNum 3; JNum 4; JNum 5]]))))
    "BTC/USDT" "1h" 2 [] =
  (Throw (Error ("Failed to fetch OHLCV data: "
                 +:+ message (TypeError "Cannot convert object to primitive value"))),
   [] ++ [EvFetchOHLCV (request_of "BTC/USDT" "1h" 2)]).
Proof.
  apply (fetch_unconvertible_timestamp sample_builtins
           (sample_module (JBool true)
              (Resolved (JArr (JArr <$> [bar 1 2 3 4 5 6;
                                         [JObj [("toString", JNull)];
                                          JNum 1; JNum 2; JNum 3; JNum 4; JNum 5]]))))
           "BTC/USDT" "1h" 2 []
           [bar 1 2 3 4 5 6;
            [JObj [("toString", JNull)]; JNum 1; JNum 2; JNum 3; JNum 4; JNum 5]]
           1 [JObj [("toString", JNull)]; JNum 1; JNum 2; JNum 3; JNum 4; JNum 5]
           (TypeError "Cannot convert object to primitive value")).
  - vm_compute. reflexivity.
  - reflexivity.
  - repeat constructor; simpl; lia.
  - reflexivity.
  - reflexivity.
  - intros j r' Hj Hr'. destruct j as [|j]; [|lia].
    inversion Hr'; subst. apply primitive_accepted. reflexivity.
Defined.

(** ** Tool calls, end to end *)


(** X6. With a well-formed response whose field 0 is a primitive in
    every row, the awesome-oscillator tool hands the indicator the third
    and fourth field of every row (highs and lows), in row order, and
    returns the stringified result as its text payload, after one
    request. *)
Theorem awesome_oscillator_end_to_end
    (js : Builtins)
    (awesomeOscillator : list JsVal -> list JsVal -> Z -> Z -> Res JsVal)
    (JSON_stringify : JsVal -> Res JsVal) (m : Module)
    (symbol timeframe : string) (fastPeriod slowPeriod limit : Z)
    (tr : list Event) (rows : list (list JsVal)) (result t : JsVal) :
  supports_fetchOHLCV m = true ->
  ex_fetchOHLCV (exchange m) tr (request_of symbol timeframe limit)
    = Resolved (JArr (JArr <$> rows)) ->
  1 <= length rows ->
  Forall (fun r => 6 <= length r) rows ->
  Forall (fun r => is_primitive (nth 0 r JUndefined) = true) rows ->
  awesomeOscillator (map (fun r => nth 2 r JUndefined) rows)
    (map (fun r => nth 3 r JUndefined) rows) fastPeriod slowPeriod = Ok result ->
  JSON_stringify result = Ok t ->
  calculate_awesome_oscillator js awesomeOscillator JSON_stringify m
    symbol timeframe fastPeriod slowPeriod limit tr =
  (Ok (mkToolResult [mkContentItem "text" t]),
   tr ++ [EvFetchOHLCV (request_of symbol timeframe limit)]).
Proof.
  intros Hsup Hout Hlen Hall Hprim Hind Hstr.
  unfold calculate_awesome_oscillator. rewrite tool_callback_run.
  destruct (date_column_primitive js rows Hprim) as [ds Hds].
  rewrite (fetch_validated _ _ _ _ _ _ _ _ Hsup Hout
             (validate_response_wellformed rows Hlen Hall)
             (fmap_JArr_arrays rows)), Hds.
  cbn [fst snd highs lows series_of_rows].
  assert (forall k, map (field k) (JArr <$> rows)
                    = map (fun r => nth k r JUndefined) rows) as Hcol.
  { intros k. clear. induction rows as [|r rows IH]; [reflexivity|].
    cbn [fmap list_fmap map field]. now rewrite <- IH. }
  now rewrite !Hcol, Hind, Hstr.
Qed.

Lemma awesome_oscillator_end_to_end_witness :
  calculate_awesome_oscillator sample_builtins
    (fun hs ls _ _ => Ok (JArr (hs ++ ls))) (fun v => Ok v)
    (sample_module (JBool true) (Resolved (JArr (JArr <$> sample_rows))))
    "BTC/USDT" "1h" 5 34 2 [] =
  (Ok (mkToolResult
         [mkContentItem "text" (JArr [JNum 110; JNum 120; JNum 90; JNum 101])]),
   [] ++ [EvFetchOHLCV (request_of "BTC/USDT" "1h" 2)]).
Proof.
  apply (awesome_oscillator_end_to_end sample_builtins
           (fun hs ls _ _ => Ok (JArr (hs ++ ls))) (fun v => Ok v)
           (sample_module (JBool true) (Resolved (JArr (JArr <$> sample_rows))))
           "BTC/USDT" "1h" 5 34 2 [] sample_rows
           (JArr [JNum 110; JNum 120; JNum 90; JNum 101])).
  - vm_compute. reflexivity.
  - reflexivity.
  - simpl. lia.
  - repeat constructor; simpl; lia.
  - repeat constructor.
  - reflexivity.
  - reflexivity.
Defined.

(** X7. When the provider call rejects, every tool callback answers with
    the text "Error: Failed to fetch OHLCV data: " followed by the
    provider's message; the indicator result plays no part. *)
Theorem tool_reports_provider_failure
    (js : Builtins) (JSON_stringify : JsVal -> Res JsVal) (m : Module)
    (indicator : PriceSeries -> Res JsVal)
    (symbol timeframe : string) (limit : Z) (tr : list Event) (e0 : JsError) :
  supports_fetchOHLCV m = true ->
  ex_fetchOHLCV (exchange m) tr (request_of symbol timeframe limit) = Rejected e0 ->
  tool_callback js JSON_stringify m indicator symbol timeframe limit tr =
  (Ok (mkToolResult
         [mkContentItem "text"
            (JStr ("Error: Failed to fetch OHLCV data: " +:+ message e0))]),
   tr ++ [EvFetchOHLCV (request_of symbol timeframe limit)]).
Proof.
  intros Hsup Hout.
  now rewrite tool_callback_run, (fetch_rejected _ _ _ _ _ _ e0 Hsup Hout).
Qed.

Lemma tool_reports_provider_failure_witness :
  tool_callback sample_builtins (fun v => Ok v)
    (sample_module (JBool true) (Rejected (Error "rate limit exceeded")))
    (fun _ => Ok JNull) "BTC/USDT" "1h" 100 [] =
  (Ok (mkToolResult
         [mkContentItem "text"
            (JStr "Error: Failed to fetch OHLCV data: rate limit exceeded")]),
   [] ++ [EvFetchOHLCV (request_of "BTC/USDT" "1h" 100)]).
Proof.
  apply (tool_reports_provider_failure sample_builtins (fun v => Ok v)
           (sample_module (JBool true) (Rejected (Error "rate limit exceeded")))
           (fun _ => Ok JNull) "BTC/USDT" "1h" 100 []
           (Error "rate limit exceeded")).
  - vm_compute. reflexivity.
  - reflexivity.
Defined.

(** X8. Under a client that does not declare [fetchOHLCV], every tool
    callback answers with the capability text naming the provider and
    sends nothing to the provider. *)
Theorem tool_reports_missing_capability
    (js : Builtins) (JSON_stringify : JsVal -> Res JsVal) (m : Module)
    (indicator : PriceSeries -> Res JsVal)
    (symbol timeframe : string) (limit : Z) (tr : list Event) :
  supports_fetchOHLCV m = false ->
  tool_callback js JSON_stringify m indicator symbol timeframe limit tr =
  (Ok (mkToolResult
         [mkContentItem "text"
            (JStr ("Error: Failed to fetch OHLCV data: " +:+ exid m
                   +:+ " does not support fetchOHLCV"))]),
   tr).
Proof.
  intros Hsup.
  now rewrite tool_callback_run, (fetch_unsupported _ _ _ _ _ _ Hsup).
Qed.

Lemma tool_reports_missing_capability_witness :
  tool_callback sample_builtins (fun v => Ok v)
    (sample_module JUndefined (Resolved (JArr (JArr <$> sample_rows))))
    (fun _ => Ok JNull) "BTC/USDT" "1h" 100 [] =
  (Ok (mkToolResult
         [mkContentItem "text"
            (JStr ("Error: Failed to fetch OHLCV data: " +:+ "binance"
                   +:+ " does not support fetchOHLCV"))]),
   []).
Proof.
  apply (tool_reports_missing_capability sample_builtins (fun v => Ok v)
           (sample_module JUndefined (Resolved (JArr (JArr <$> sample_rows))))
           (fun _ => Ok JNull) "BTC/USDT" "1h" 100 []).
  vm_compute. reflexivity.
Defined.

(** ** Start-up, beyond the default *)

Lemma allowed_not_empty (id : string) :
  id ∈ ALLOWED_EXCHANGES -> truthy (JStr id) = true.
Proof.
  intros Hin. destruct id as [|c id]; [|reflexivity].
  apply Set_has_elem_of in Hin. discriminate.
Qed.

Lemma new_exchange_run ccxt id opts tr :
  new_exchange ccxt id opts tr =
  match ccxt !! id with
  | Some ctor => (Ok (ctor opts), tr ++ [EvNew id opts])
  | None => (Throw (TypeError "ccxt[exid] is not a constructor"), tr)
  end.
Proof. unfold new_exchange. destruct (ccxt !! id); reflexivity. Qed.

(** Loading with an allow-listed identifier, step by step. *)
Lemma load_module_allowed env ccxt tr :
  read_exid env ∈ ALLOWED_EXCHANGES ->
  load_module env ccxt tr =
  match ccxt !! read_exid env with
  | Some ctor =>
      (Ok (mkModule (read_exid env) (ctor (mkOptions true))),
       tr ++ [EvNew (read_exid env) (mkOptions true)])
  | None => (Throw (TypeError "ccxt[exid] is not a constructor"), tr)
  end.
Proof.
  intros Hin. apply Set_has_elem_of in Hin.
  unfold load_module. rewrite Hin. cbn [negb]. unfold bind.
  rewrite new_exchange_run. destruct (ccxt !! read_exid env); reflexivity.
Qed.

(** X9. Any of the ten allow-listed identifiers given in [EXCHANGE_NAME]
    is taken as it is: loading constructs the class of that name, once,
    with rate limiting enabled, and the module keeps the identifier and
    the client. *)
Theorem load_configured_exchange
    (env : gmap string string) (ccxt : gmap string (ClientOptions -> Exchange))
    (id : string) (ctor : ClientOptions -> Exchange) (tr : list Event) :
  env !! "EXCHANGE_NAME" = Some id ->
  id ∈ ALLOWED_EXCHANGES ->
  ccxt !! id = Some ctor ->
  load_module env ccxt tr =
  (Ok (mkModule id (ctor (mkOptions true))), tr ++ [EvNew id (mkOptions true)]).
Proof.
  intros Henv Hin Hccxt.
  assert (read_exid env = id) as Hid.
  { unfold read_exid. rewrite Henv. now rewrite (allowed_not_empty id Hin). }
  rewrite load_module_allowed by now rewrite Hid.
  now rewrite Hid, Hccxt.
Qed.

Lemma load_configured_exchange_witness :
  load_module {[ "EXCHANGE_NAME" := "kraken" ]}
    {[ "kraken" := fun _ => sample_exchange (JBool true) (Rejected (Error "down")) ]}
    [] =
  (Ok (mkModule "kraken"
         (sample_exchange (JBool true) (Rejected (Error "down")))),
   [] ++ [EvNew "kraken" (mkOptions true)]).
Proof.
  apply (load_configured_exchange {[ "EXCHANGE_NAME" := "kraken" ]}
           {[ "kraken" := fun _ => sample_exchange (JBool true)
                                     (Rejected (Error "down")) ]}
           "kraken"
           (fun _ => sample_exchange (JBool true) (Rejected (Error "down"))) []).
  - vm_compute. reflexivity.
  - apply (bool_decide_unpack _). vm_compute. exact I.
  - vm_compute. reflexivity.
Defined.

(** X10. A module that has loaded always carries an allow-listed
    identifier, the one read from the environment, and the client the
    library class of that name built with rate limiting enabled; exactly
    one construction was added to the trace. *)
Theorem loaded_module_allowed
    (env : gmap string string) (ccxt : gmap string (ClientOptions -> Exchange))
    (tr tr' : list Event) (m : Module) :
  load_module env ccxt tr = (Ok m, tr') ->
  exid m = read_exid env /\
  exid m ∈ ALLOWED_EXCHANGES /\
  (exists ctor, ccxt !! exid m = Some ctor /\ exchange m = ctor (mkOptions true)) /\
  tr' = tr ++ [EvNew (exid m) (mkOptions true)].
Proof.
  intros Hload.
  destruct (Set_has ALLOWED_EXCHANGES (read_exid env)) eqn:Hhas.
  - apply Set_has_elem_of in Hhas.
    rewrite (load_module_allowed _ _ _ Hhas) in Hload.
    destruct (ccxt !! read_exid env) as [ctor|] eqn:Hccxt; [|discriminate].
    inversion Hload; subst. simpl. repeat split; try assumption.
    exists ctor. split; [assumption|reflexivity].
  - unfold load_module in Hload. rewrite Hhas in Hload. discriminate.
Qed.

Lemma loaded_module_allowed_witness :
  exid (mkModule "binance"
          (sample_exchange (JBool true) (Resolved (JArr (JArr <$> sample_rows)))))
    = read_exid ∅ /\
  exid (mkModule "binance"
          (sample_exchange (JBool true) (Resolved (JArr (JArr <$> sample_rows)))))
    ∈ ALLOWED_EXCHANGES /\
  (exists ctor,
      sample_ccxt !! exid (mkModule "binance"
          (sample_exchange (JBool true) (Resolved (JArr (JArr <$> sample_rows)))))
        = Some ctor /\
      exchange (mkModule "binance"
          (sample_exchange (JBool true) (Resolved (JArr (JArr <$> sample_rows)))))
        = ctor (mkOptions true)) /\
  [EvNew "binance" (mkOptions true)] =
  [] ++ [EvNew (exid (mkModule "binance"
          (sample_exchange (JBool true) (Resolved (JArr (JArr <$> sample_rows))))))
          (mkOptions true)].
Proof.
  apply (loaded_module_allowed ∅ sample_ccxt [] [EvNew "binance" (mkOptions true)]
           (mkModule "binance"
              (sample_exchange (JBool true)
                 (Resolved (JArr (JArr <$> sample_rows)))))).
  vm_compute. reflexivity.
Defined.

(** X11. An [EXCHANGE_NAME] that is set to the empty string counts as
    unset: the module loads with "binance". *)
Theorem load_empty_name_defaults
    (env : gmap string string) (ccxt : gmap string (ClientOptions -> Exchange))
    (ctor : ClientOptions -> Exchange) (tr : list Event) :
  env !! "EXCHANGE_NAME" = Some EmptyString ->
  ccxt !! "binance" = Some ctor ->
  load_module env ccxt tr =
  (Ok (mkModule "binance" (ctor (mkOptions true))),
   tr ++ [EvNew "binance" (mkOptions true)]).
Proof.
  intros Henv Hccxt.
  assert (read_exid env = "binance") as Hid
    by (unfold read_exid; now rewrite Henv).
  rewrite load_module_allowed by (rewrite Hid; apply Set_has_elem_of; reflexivity).
  now rewrite Hid, Hccxt.
Qed.

Lemma load_empty_name_defaults_witness :
  load_module {[ "EXCHANGE_NAME" := EmptyString ]} sample_ccxt [] =
  (Ok (mkModule "binance"
         (sample_exchange (JBool true) (Resolved (JArr (JArr <$> sample_rows))))),
   [] ++ [EvNew "binance" (mkOptions true)]).
Proof.
  apply (load_empty_name_defaults {[ "EXCHANGE_NAME" := EmptyString ]} sample_ccxt
           (fun _ => sample_exchange (JBool true)
                       (Resolved (JArr (JArr <$> sample_rows)))) []).
  - vm_compute. reflexivity.
  - vm_compute. reflexivity.
Defined.

(** X12. Start-up and fetch together: with an identifier outside the
    allow-list the whole run stops at the configuration error, with no
    client constructed and no request sent; with an allow-listed
    identifier whose client declares support, the construction comes
    first and the one request second, and the provider sees the
    construction in the history of that request. *)
Theorem startup_then_fetch_trace
    (js : Builtins) (env : gmap string string) (ccxt : gmap string (ClientOptions -> Exchange))
    (symbol timeframe : string) (limit : Z) (tr : list Event) :
  (read_exid env ∉ ALLOWED_EXCHANGES ->
   startup_then_fetch js env ccxt symbol timeframe limit tr =
   (Throw (Error ("Unsupported exchange: " +:+ dquote +:+ read_exid env
                  +:+ dquote +:+ ". Allowed: binance, kraken, coinbase, bybit, "
                  +:+ "okx, kucoin, gate, huobi, bitfinex, mexc")), tr)) /\
  (forall ctor,
     read_exid env ∈ ALLOWED_EXCHANGES ->
     ccxt !! read_exid env = Some ctor ->
     supports_fetchOHLCV (mkModule (read_exid env) (ctor (mkOptions true))) = true ->
     startup_then_fetch js env ccxt symbol timeframe limit tr =
     fetchOhlcvData js (mkModule (read_exid env) (ctor (mkOptions true)))
       symbol timeframe limit (tr ++ [EvNew (read_exid env) (mkOptions true)]) /\
     snd (startup_then_fetch js env ccxt symbol timeframe limit tr) =
     tr ++ [EvNew (read_exid env) (mkOptions true);
            EvFetchOHLCV (request_of symbol timeframe limit)]).
Proof.
  split.
  - intros Hnot. unfold startup_then_fetch, bind, load_module.
    now rewrite (Set_has_not_elem_of _ _ Hnot).
  - intros ctor Hin Hccxt Hsup.
    assert (startup_then_fetch js env ccxt symbol timeframe limit tr =
            fetchOhlcvData js (mkModule (read_exid env) (ctor (mkOptions true)))
              symbol timeframe limit
              (tr ++ [EvNew (read_exid env) (mkOptions true)])) as Hrun.
    { unfold startup_then_fetch, bind.
      rewrite (load_module_allowed _ _ _ Hin), Hccxt. reflexivity. }
    split; [assumption|].
    rewrite Hrun, fetch_trace, Hsup. now rewrite <- app_assoc.
Qed.

Lemma startup_then_fetch_trace_witness :
  snd (startup_then_fetch sample_builtins ∅ sample_ccxt "BTC/USDT" "1h" 2 []) =
  [] ++ [EvNew (read_exid ∅) (mkOptions true);
         EvFetchOHLCV (request_of "BTC/USDT" "1h" 2)].
Proof.
  destruct (startup_then_fetch_trace sample_builtins ∅ sample_ccxt "BTC/USDT" "1h" 2 [])
    as [_ Hallowed].
  apply (Hallowed (fun _ => sample_exchange (JBool true)
                              (Resolved (JArr (JArr <$> sample_rows))))).
  - apply (bool_decide_unpack _). vm_compute. exact I.
  - vm_compute. reflexivity.
  - vm_compute. reflexivity.
Defined.

(** ** The symbol pattern *)

Lemma regex_test_end (s : list ascii) :
  regex_test [] s = true <-> s = [].
Proof. destruct s; simpl; split; congruence. Qed.

Lemma regex_test_lit c rest (s : list ascii) :
  regex_test (Lit c :: rest) s = true <->
  exists s', s = c :: s' /\ regex_test rest s' = true.
Proof.
  destruct s as [|c' s']; simpl.
  - split; [discriminate|]. intros (s' & H & _). discriminate.
  - rewrite andb_true_iff, Ascii.eqb_eq. split.
    + intros [-> H]. now exists s'.
    + intros (s'' & H & Hrest). inversion H; subst. now split.
Qed.

Lemma regex_test_class p lo hi rest (s : list ascii) :
  regex_test (Class p lo hi :: rest) s = true <->
  exists pre suf,
    s = pre ++ suf /\ lo <= length pre <= hi /\
    Forall (fun c => p c = true) pre /\ regex_test rest suf = true.
Proof.
  cbn [regex_test]. rewrite existsb_exists. split.
  - intros (k & Hin & Hk). apply in_seq in Hin.
    rewrite !andb_true_iff in Hk. destruct Hk as [[Hlen Hall] Hrest].
    apply Nat.leb_le in Hlen.
    exists (take k s), (drop k s).
    split; [now rewrite take_drop|].
    split; [rewrite length_take; lia|].
    split; [|assumption].
    apply Forall_forall. intros c Hc.
    rewrite forallb_forall in Hall. apply Hall. now apply list_elem_of_In.
  - intros (pre & suf & -> & Hlen & Hall & Hrest).
    exists (length pre). split; [apply in_seq; lia|].
    rewrite !andb_true_iff. split; [split|].
    + apply Nat.leb_le. rewrite length_app. lia.
    + rewrite take_app_length. apply forallb_forall. intros c Hc.
      rewrite Forall_forall in Hall. apply Hall. now apply list_elem_of_In.
    + now rewrite drop_app_length.
Qed.

Lemma list_ascii_of_string_app (a b : string) :
  list_ascii_of_string (a +:+ b) = list_ascii_of_string a ++ list_ascii_of_string b.
Proof. induction a as [|c a IH]; simpl; [reflexivity|]. now rewrite IH. Qed.

Lemma list_ascii_of_string_length (a : string) :
  length (list_ascii_of_string a) = String.length a.
Proof. induction a as [|c a IH]; simpl; [reflexivity|]. now rewrite IH. Qed.

Lemma pair_side_list (l : list ascii) :
  1 <= length l <= 10 -> Forall (fun c => upper_or_digit c = true) l ->
  pair_side (string_of_list_ascii l).
Proof.
  intros Hlen Hall. unfold pair_side.
  rewrite <- list_ascii_of_string_length, list_ascii_of_string_of_list_ascii.
  now split.
Qed.

(** X13. The [symbol] parameter is accepted exactly when it is a string
    of the form BASE/QUOTE in which each side has one to ten characters,
    all of them capital letters or digits: no lower case, no second
    slash, no suffix, no blank. *)
Theorem symbol_accepted_iff (v : JsVal) :
  symbol_accepted v = true <->
  exists base quote,
    v = JStr (base +:+ "/" +:+ quote) /\ pair_side base /\ pair_side quote.
Proof.
  split.
  - destruct v as [| | | |s| | |]; try discriminate. unfold symbol_accepted, SYMBOL_PATTERN.
    intros H.
    apply regex_test_class in H.
    destruct H as (base & rest & Hs & Hblen & Hball & H).
    apply regex_test_lit in H. destruct H as (rest' & -> & H).
    apply regex_test_class in H.
    destruct H as (quote & tail & -> & Hqlen & Hqall & H).
    apply regex_test_end in H. subst tail. rewrite app_nil_r in Hs.
    exists (string_of_list_ascii base), (string_of_list_ascii quote).
    split; [|split; now apply pair_side_list].
    f_equal. rewrite <- (string_of_list_ascii_of_string s), Hs.
    rewrite <- (string_of_list_ascii_of_string
                  (string_of_list_ascii base +:+ "/" +:+ string_of_list_ascii quote)).
    f_equal. rewrite !list_ascii_of_string_app.
    now rewrite !list_ascii_of_string_of_list_ascii.
  - intros (base & quote & -> & [Hblen Hball] & [Hqlen Hqall]).
    unfold symbol_accepted, SYMBOL_PATTERN.
    rewrite !list_ascii_of_string_app. cbn [list_ascii_of_string app].
    apply regex_test_class.
    exists (list_ascii_of_string base), ("/"%char :: list_ascii_of_string quote).
    split; [reflexivity|].
    split; [now rewrite list_ascii_of_string_length|].
    split; [assumption|].
    apply regex_test_lit. eexists. split; [reflexivity|].
    apply regex_test_class.
    exists (list_ascii_of_string quote), [].
    split; [now rewrite app_nil_r|].
    split; [now rewrite list_ascii_of_string_length|].
    split; [assumption|reflexivity].
Qed.
